(** * The restaurant-booking conversation engine

    A shallow embedding of the server side of the voice booking agent:
    the shared schema ([shared/schema]), the weather resolver
    ([server/weather]), the language-model adapter with its fallback
    parser and the seating rule ([server/gemini]), the in-memory store
    ([server/storage.ts]) and the chat route ([server/routes.ts]).

    Conventions of the embedding.
    - A JavaScript string is a [string], the sequence of the codes of its
      characters.  The embedding is exact on ASCII text; a character
      outside ASCII (the degree sign of the seating rationale is the only
      one the source writes) is carried as the bytes of its UTF-8 encoding,
      and case mapping leaves such bytes as they are.
    - A JavaScript number is a [number]: NaN, the two infinities, or a
      finite value carried as a rational.  Every double is one of these,
      and the operations the engine applies to numbers (comparison,
      [Math.min], [Math.max], [Math.round], [Math.floor], truthiness) are
      exact on doubles, so they are computed exactly here.
    - What the JavaScript host or the network supplies (the clock, the
      random UUID, the weather service, the language model, the printing
      of numbers and dates) is an explicit argument: a [Host] for the
      built-ins that are not re-implemented, a [World] for what one
      request observes. *)

From Stdlib Require Import ZArith QArith Qround Qabs Ascii String DecimalString List Bool Lia Lqa.
From stdpp Require Import base gmap strings list.

Local Open Scope string_scope.

(** ** Strings *)

Module Js.

Definition dquote : string := String "034" EmptyString.
Definition newline : string := String "010" EmptyString.

Definition code (c : ascii) : N := N_of_ascii c.

Definition is_lower (c : ascii) : bool := ((97 <=? code c) && (code c <=? 122))%N.
Definition is_upper (c : ascii) : bool := ((65 <=? code c) && (code c <=? 90))%N.
Definition is_digit (c : ascii) : bool := ((48 <=? code c) && (code c <=? 57))%N.

Definition lower_char (c : ascii) : ascii :=
  if is_upper c then ascii_of_N (code c + 32) else c.
Definition upper_char (c : ascii) : ascii :=
  if is_lower c then ascii_of_N (code c - 32) else c.

(** [s.toLowerCase()] and [s.toUpperCase()], exact on ASCII text.  Outside
    ASCII JavaScript maps some characters to others, and some to several
    (the sharp s to SS); the embedding leaves such characters as they are. *)
Fixpoint toLowerCase (s : string) : string :=
  match s with
  | EmptyString => EmptyString
  | String c r => String (lower_char c) (toLowerCase r)
  end.

Fixpoint toUpperCase (s : string) : string :=
  match s with
  | EmptyString => EmptyString
  | String c r => String (upper_char c) (toUpperCase r)
  end.

(** [s.includes(pat)]. *)
Fixpoint includes (s pat : string) : bool :=
  String.prefix pat s ||
  match s with
  | EmptyString => false
  | String _ r => includes r pat
  end.

(** [s.split(sep)] for a one-character separator: never empty. *)
Fixpoint split (sep : ascii) (s : string) : list string :=
  match s with
  | EmptyString => [EmptyString]
  | String c r =>
      if Ascii.eqb c sep then EmptyString :: split sep r
      else match split sep r with
           | w :: ws => String c w :: ws
           | [] => [String c EmptyString]
           end
  end.

(** [parts.join(sep)]. *)
Fixpoint join (sep : string) (parts : list string) : string :=
  match parts with
  | [] => EmptyString
  | [w] => w
  | w :: ws => w +:+ sep +:+ join sep ws
  end.

(** [s.slice(0, n)] and [s.slice(n)] for a non-negative [n]. *)
Fixpoint slice_to (n : nat) (s : string) : string :=
  match n, s with
  | S k, String c r => String c (slice_to k r)
  | _, _ => EmptyString
  end.

Fixpoint slice_from (n : nat) (s : string) : string :=
  match n, s with
  | S k, String _ r => slice_from k r
  | _, _ => s
  end.

(** [s.charAt(0)]: the empty string when [s] is empty. *)
Definition charAt0 (s : string) : string :=
  match s with
  | EmptyString => EmptyString
  | String c _ => String c EmptyString
  end.

(** Truthiness of a string. *)
Definition truthy_string (s : string) : bool :=
  match s with EmptyString => false | _ => true end.

(** ** Numbers *)

Inductive number : Type :=
| NaN
| PosInf
| NegInf
| Fin (q : Q).

Definition of_Z (z : Z) : number := Fin (inject_Z z).

Definition Qlt_bool (x y : Q) : bool := negb (Qle_bool y x).

(** [a < b]; false as soon as one side is NaN. *)
Definition lt (a b : number) : bool :=
  match a, b with
  | NaN, _ | _, NaN => false
  | _, NegInf => false
  | NegInf, _ => true
  | PosInf, _ => false
  | Fin _, PosInf => true
  | Fin x, Fin y => Qlt_bool x y
  end.

Definition gt (a b : number) : bool := lt b a.

(** [a <= b]; false as soon as one side is NaN. *)
Definition le (a b : number) : bool :=
  match a, b with
  | NaN, _ | _, NaN => false
  | NegInf, _ => true
  | _, PosInf => true
  | _, NegInf => false
  | PosInf, _ => false
  | Fin x, Fin y => Qle_bool x y
  end.

Definition ge (a b : number) : bool := le b a.

Definition Math_max (a b : number) : number :=
  match a, b with
  | NaN, _ | _, NaN => NaN
  | _, _ => if lt a b then b else a
  end.

Definition Math_min (a b : number) : number :=
  match a, b with
  | NaN, _ | _, NaN => NaN
  | _, _ => if lt b a then b else a
  end.

(** [Math.round]: the nearest integer, a tie going towards +infinity. *)
Definition round_half_up (q : Q) : Z := Qfloor (q + (1 # 2)).

Definition Math_round (a : number) : number :=
  match a with
  | Fin q => of_Z (round_half_up q)
  | _ => a
  end.

(** Truthiness of a number: 0 and NaN are falsy. *)
Definition truthy_number (a : number) : bool :=
  match a with
  | NaN => false
  | Fin q => negb (Qeq_bool q 0)
  | _ => true
  end.

End Js.

Import Js.

(** ** The shared schema *)

Inductive Seating : Type := indoor | outdoor | no_preference.

Inductive Status : Type := pending | confirmed | cancelled.

Inductive Step : Type :=
| greeting
| collect_name
| collect_guests
| collect_date
| collect_time
| collect_cuisine
| collect_location
| fetch_weather
| suggest_seating
| collect_special_requests
| confirm_booking
| booking_complete.

#[global] Instance Seating_eq_dec : EqDecision Seating.
Proof. solve_decision. Defined.
#[global] Instance Status_eq_dec : EqDecision Status.
Proof. solve_decision. Defined.
#[global] Instance Step_eq_dec : EqDecision Step.
Proof. solve_decision. Defined.

(** The string each enumeration value is on the wire. *)
Definition Step_name (s : Step) : string :=
  match s with
  | greeting => "greeting"
  | collect_name => "collect_name"
  | collect_guests => "collect_guests"
  | collect_date => "collect_date"
  | collect_time => "collect_time"
  | collect_cuisine => "collect_cuisine"
  | collect_location => "collect_location"
  | fetch_weather => "fetch_weather"
  | suggest_seating => "suggest_seating"
  | collect_special_requests => "collect_special_requests"
  | confirm_booking => "confirm_booking"
  | booking_complete => "booking_complete"
  end.

Definition Seating_name (s : Seating) : string :=
  match s with
  | indoor => "indoor"
  | outdoor => "outdoor"
  | no_preference => "no_preference"
  end.

Definition Status_name (s : Status) : string :=
  match s with
  | pending => "pending"
  | confirmed => "confirmed"
  | cancelled => "cancelled"
  end.

Record WeatherInfo : Type := mkWeatherInfo {
  condition : string;
  temperature : number;
  description : string;
  icon : string;
  humidity : option number;
  windSpeed : option number
}.

(** [BookingContext]: an optional field is [None] when it is undefined. *)
Record BookingContext : Type := mkContext {
  customerName : option string;
  numberOfGuests : option number;
  bookingDate : option string;
  bookingTime : option string;
  cuisinePreference : option string;
  location : option string;
  specialRequests : option string;
  seatingPreference : option Seating;
  weatherInfo : option WeatherInfo;
  step : Step
}.

Module Insert.
Record t : Type := mk {
  customerName : string;
  numberOfGuests : number;
  bookingDate : string;
  bookingTime : string;
  cuisinePreference : string;
  location : string;
  specialRequests : option string;
  weatherInfo : option WeatherInfo;
  seatingPreference : Seating
}.
End Insert.
Abbreviation InsertBooking := Insert.t.

Module Booking.
Record t : Type := mk {
  bookingId : string;
  customerName : string;
  numberOfGuests : number;
  bookingDate : string;
  bookingTime : string;
  cuisinePreference : string;
  location : string;
  specialRequests : option string;
  weatherInfo : option WeatherInfo;
  seatingPreference : Seating;
  status : Status;
  createdAt : string
}.
End Booking.
Abbreviation Booking := Booking.t.

Record ChatResponse : Type := mkChatResponse {
  response : string;
  context : BookingContext;
  bookingComplete : option bool;
  booking : option Booking
}.

(** Functional updates of a context ([{ ...context, field: v }]). *)
Definition set_step (s : Step) (c : BookingContext) : BookingContext :=
  mkContext (customerName c) (numberOfGuests c) (bookingDate c) (bookingTime c)
    (cuisinePreference c) (location c) (specialRequests c)
    (seatingPreference c) (weatherInfo c) s.

Definition set_customerName (v : option string) (c : BookingContext) : BookingContext :=
  mkContext v (numberOfGuests c) (bookingDate c) (bookingTime c)
    (cuisinePreference c) (location c) (specialRequests c)
    (seatingPreference c) (weatherInfo c) (step c).

Definition set_numberOfGuests (v : option number) (c : BookingContext) : BookingContext :=
  mkContext (customerName c) v (bookingDate c) (bookingTime c)
    (cuisinePreference c) (location c) (specialRequests c)
    (seatingPreference c) (weatherInfo c) (step c).

Definition set_bookingDate (v : option string) (c : BookingContext) : BookingContext :=
  mkContext (customerName c) (numberOfGuests c) v (bookingTime c)
    (cuisinePreference c) (location c) (specialRequests c)
    (seatingPreference c) (weatherInfo c) (step c).

Definition set_bookingTime (v : option string) (c : BookingContext) : BookingContext :=
  mkContext (customerName c) (numberOfGuests c) (bookingDate c) v
    (cuisinePreference c) (location c) (specialRequests c)
    (seatingPreference c) (weatherInfo c) (step c).

Definition set_cuisinePreference (v : option string) (c : BookingContext) : BookingContext :=
  mkContext (customerName c) (numberOfGuests c) (bookingDate c) (bookingTime c)
    v (location c) (specialRequests c)
    (seatingPreference c) (weatherInfo c) (step c).

Definition set_location (v : option string) (c : BookingContext) : BookingContext :=
  mkContext (customerName c) (numberOfGuests c) (bookingDate c) (bookingTime c)
    (cuisinePreference c) v (specialRequests c)
    (seatingPreference c) (weatherInfo c) (step c).

Definition set_specialRequests (v : option string) (c : BookingContext) : BookingContext :=
  mkContext (customerName c) (numberOfGuests c) (bookingDate c) (bookingTime c)
    (cuisinePreference c) (location c) v
    (seatingPreference c) (weatherInfo c) (step c).

Definition set_seatingPreference (v : option Seating) (c : BookingContext) : BookingContext :=
  mkContext (customerName c) (numberOfGuests c) (bookingDate c) (bookingTime c)
    (cuisinePreference c) (location c) (specialRequests c)
    v (weatherInfo c) (step c).

Definition set_weatherInfo (v : option WeatherInfo) (c : BookingContext) : BookingContext :=
  mkContext (customerName c) (numberOfGuests c) (bookingDate c) (bookingTime c)
    (cuisinePreference c) (location c) (specialRequests c)
    (seatingPreference c) v (step c).

(** ** What JSON.parse hands to the merge

    The reply of the language model is read at the type the merge declares
    for it, [{ extractedData?: Partial<BookingContext>; nextStep?: string;
    isConfirmed?: boolean }], with [null] added, which the prompt tells the
    model to use for a field it could not extract.  The guest count is
    kept as a dynamically typed value, because the merge tests its type. *)

Inductive maybe (A : Type) : Type :=
| Undefined
| Null
| Val (a : A).
Arguments Undefined {A}.
Arguments Null {A}.
Arguments Val {A} a.

Inductive JsValue : Type :=
| VUndefined
| VNull
| VBool (b : bool)
| VNumber (n : number)
| VString (s : string)
| VObject.

Definition truthy (v : JsValue) : bool :=
  match v with
  | VUndefined | VNull => false
  | VBool b => b
  | VNumber n => truthy_number n
  | VString s => truthy_string s
  | VObject => true
  end.

(** The value of [x] when [if (x)] passes, for a string-typed [x]. *)
Definition truthy_text (v : maybe string) : option string :=
  match v with
  | Val s => if truthy_string s then Some s else None
  | _ => None
  end.

Record Extracted : Type := mkExtracted {
  ex_customerName : maybe string;
  ex_numberOfGuests : JsValue;
  ex_bookingDate : maybe string;
  ex_bookingTime : maybe string;
  ex_cuisinePreference : maybe string;
  ex_location : maybe string;
  ex_specialRequests : maybe string
}.

Record Parsed : Type := mkParsed {
  p_response : maybe string;
  p_extractedData : option Extracted;
  p_nextStep : maybe string;
  p_isConfirmed : JsValue
}.

(** ** The host

    Built-ins of the JavaScript engine that the embedding takes as they
    are: the printing of a number inside a template literal, the parsing of
    a date string ([None] is an invalid date, whose time is NaN), the
    en-US long rendering of a date ([None] when it throws) and
    [JSON.parse] ([None] when it throws). *)

Record Host : Type := mkHost {
  Number_toString : number -> string;
  Date_getTime : string -> option Z;
  Date_toLocaleDateString : string -> option string;
  JSON_parse : string -> option Parsed
}.

(** ** The seating rule ([generateSeatingResponse]) *)

Record SeatingResponse : Type := mkSeatingResponse {
  seating_response : string;
  preference : Seating
}.

Section SeatingRule.

Variable host : Host.

Definition generateSeatingResponse (weatherCondition : string) (temperature : number)
  : SeatingResponse :=
  let condition := toLowerCase weatherCondition in
  if includes condition "rain" || includes condition "storm" || includes condition "snow" then
    {| seating_response :=
         "It looks like there might be some " +:+ condition +:+
         " on your booking date. I'd recommend our cozy indoor seating area where you can enjoy your meal comfortably. Does that sound good?";
       preference := indoor |}
  else if gt temperature (of_Z 30) then
    {| seating_response :=
         "It's going to be quite warm at " +:+
         Number_toString host (Math_round temperature) +:+
         "°C on your booking date. Our air-conditioned indoor seating would be more comfortable. Would you prefer that?";
       preference := indoor |}
  else if lt temperature (of_Z 10) then
    {| seating_response :=
         "It's going to be a bit chilly at " +:+
         Number_toString host (Math_round temperature) +:+
         "°C on your booking date. Our warm indoor seating would be perfect. Sound good?";
       preference := indoor |}
  else if includes condition "clear" || includes condition "sunny" then
    {| seating_response :=
         "Great news! The weather looks beautiful on your booking date - " +:+
         Number_toString host (Math_round temperature) +:+
         "°C and " +:+ condition +:+
         "! Would you like outdoor seating to enjoy the lovely weather?";
       preference := outdoor |}
  else
    {| seating_response :=
         "The weather on your booking date looks fine - around " +:+
         Number_toString host (Math_round temperature) +:+
         "°C. Would you prefer indoor or outdoor seating?";
       preference := no_preference |}.

End SeatingRule.

(** ** More of the JavaScript library: [parseInt] and two regular expressions *)

Module JsText.

(** White space that [parseInt] skips, among the ASCII codes. *)
Definition is_space (c : ascii) : bool :=
  let n := code c in
  ((n =? 9) || (n =? 10) || (n =? 11) || (n =? 12) || (n =? 13) || (n =? 32))%N.

Fixpoint trim_start (s : string) : string :=
  match s with
  | String c r => if is_space c then trim_start r else s
  | EmptyString => s
  end.

Definition digit_value (c : ascii) : option Z :=
  if is_digit c then Some (Z.of_N (code c) - 48)%Z else None.

Definition hex_value (c : ascii) : option Z :=
  let n := code c in
  if is_digit c then Some (Z.of_N n - 48)%Z
  else if ((97 <=? n) && (n <=? 102))%N then Some (Z.of_N n - 87)%Z
  else if ((65 <=? n) && (n <=? 70))%N then Some (Z.of_N n - 55)%Z
  else None.

(** The value of the longest prefix of digits, [None] when it is empty.
    [acc] is the value read so far and [seen] tells whether a digit was read. *)
Fixpoint read_digits (value : ascii -> option Z) (radix : Z) (s : string)
    (acc : Z) (seen : bool) : option Z :=
  match s with
  | String c r =>
      match value c with
      | Some d => read_digits value radix r (acc * radix + d)%Z true
      | None => if seen then Some acc else None
      end
  | EmptyString => if seen then Some acc else None
  end.

Definition read_unsigned (s : string) : option Z :=
  match s with
  | String "0" (String "x" r) | String "0" (String "X" r) =>
      read_digits hex_value 16 r 0%Z false
  | _ => read_digits digit_value 10 s 0%Z false
  end.

(** [parseInt(s)] without a radix.  The result is the exact integer; the
    double JavaScript rounds it to compares in the same way with the small
    integers the engine compares it with. *)
Definition parseInt (s : string) : number :=
  let t := trim_start s in
  let '(sign, body) :=
    match t with
    | String "-" r => ((-1)%Z, r)
    | String "+" r => (1%Z, r)
    | _ => (1%Z, t)
    end in
  match read_unsigned body with
  | Some v => of_Z (sign * v)
  | None => NaN
  end.

(** [s.match(/\d+/)]: the first maximal run of digits, [None] without one. *)
Fixpoint digit_run (s : string) : string :=
  match s with
  | String c r => if is_digit c then String c (digit_run r) else EmptyString
  | EmptyString => EmptyString
  end.

Fixpoint match_digits (s : string) : option string :=
  match s with
  | String c r => if is_digit c then Some (digit_run s) else match_digits r
  | EmptyString => None
  end.

(** The longest prefix of [s] that ends with a closing brace. *)
Fixpoint up_to_last_close (s : string) : option string :=
  match s with
  | String c r =>
      match up_to_last_close r with
      | Some p => Some (String c p)
      | None => if Ascii.eqb c "}" then Some (String c EmptyString) else None
      end
  | EmptyString => None
  end.

(** [text.match(/\{[\s\S]*\}/)]: from the first opening brace to the last
    closing brace after it. *)
Fixpoint match_json (s : string) : option string :=
  match s with
  | String c r =>
      if Ascii.eqb c "{" then
        match up_to_last_close r with
        | Some p => Some (String c p)
        | None => None
        end
      else match_json r
  | EmptyString => None
  end.

End JsText.

Import JsText.

(** ** What one request observes *)

(** A computation that may throw. *)
Inductive Result (A : Type) : Type :=
| Throw
| Return (a : A).
Arguments Throw {A}.
Arguments Return {A} a.

#[global] Instance Result_bind : MBind Result :=
  fun A B (k : A -> Result B) (r : Result A) =>
    match r with
    | Throw => Throw
    | Return a => k a
    end.

Record WeatherEntry : Type := mkWeatherEntry {
  we_main : string;
  we_description : string;
  we_icon : string
}.

Record ForecastItem : Type := mkForecastItem {
  dt_txt : string;
  fi_weather : list WeatherEntry;
  fi_temp : number;
  fi_humidity : number;
  fi_wind_speed : number
}.

Record OpenWeatherResponse : Type := mkOpenWeatherResponse {
  ow_weather : list WeatherEntry;
  ow_temp : number;
  ow_humidity : number;
  ow_wind_speed : number
}.

(** - [OPENWEATHER_API_KEY]: the configured credential, empty when absent;
    - [today_midnight]: the time of [today] after [setHours(0, 0, 0, 0)];
    - [fetch_forecast], [fetch_current]: the body the weather service
      answers for a location, [Throw] when the request fails, the status is
      not ok or the body cannot be read;
    - [now_default], [now_created]: [new Date().toISOString()] when the
      booking payload is built and when the booking is stored;
    - [randomUUID]: the UUID drawn for the booking;
    - [completion]: the text of the language model's reply, [None] when the
      call throws. *)
Record World : Type := mkWorld {
  OPENWEATHER_API_KEY : string;
  today_midnight : Z;
  fetch_forecast : string -> Result (list ForecastItem);
  fetch_current : string -> Result OpenWeatherResponse;
  now_default : string;
  now_created : string;
  randomUUID : string;
  completion : option string
}.

(** ** The weather resolver *)

Definition capitalizeWords (str : string) : string :=
  join " "
    (map (fun word => toUpperCase (charAt0 word) +:+ slice_from 1 word)
         (split " " str)).

Record MockTemplate : Type := mkMockTemplate {
  mt_condition : string;
  mt_description : string;
  mt_temp : Z
}.

Definition conditions : list MockTemplate :=
  [ mkMockTemplate "Clear" "Clear sky" 25;
    mkMockTemplate "Clouds" "Partly cloudy" 22;
    mkMockTemplate "Rain" "Light rain" 18;
    mkMockTemplate "Sunny" "Sunny and warm" 28 ].

(** The sum of the character codes of the date string. *)
Fixpoint dateHash (date : string) : Z :=
  match date with
  | EmptyString => 0
  | String c r => Z.of_N (code c) + dateHash r
  end.

Definition getMockWeather (date : string) : WeatherInfo :=
  let h := dateHash date in
  let selected :=
    nth (Z.to_nat (h mod Z.of_nat (length conditions))) conditions
        (mkMockTemplate "Clear" "Clear sky" 25) in
  {| condition := mt_condition selected;
     temperature := of_Z (mt_temp selected + h mod 5 - 2);
     description := mt_description selected;
     icon := "01d";
     humidity := Some (of_Z (50 + h mod 30));
     windSpeed := Some (of_Z (2 + h mod 8)) |}.

(** [forecast.weather[0]]: reading a field of it throws on an empty array. *)
Definition first_entry (l : list WeatherEntry) : Result WeatherEntry :=
  match l with
  | e :: _ => Return e
  | [] => Throw
  end.

Definition item_date (item : ForecastItem) : string :=
  hd EmptyString (split " " (dt_txt item)).

(** The first [find]: the entry of the target date in the midday window.
    The hour is read before the test, and reading it throws when [dt_txt]
    has no second part. *)
Fixpoint find_midday (targetDate : string) (l : list ForecastItem)
  : Result (option ForecastItem) :=
  match l with
  | [] => Return None
  | item :: rest =>
      match split " " (dt_txt item) with
      | itemDate :: clock :: _ =>
          let itemHour := parseInt (hd EmptyString (split ":" clock)) in
          if String.eqb itemDate targetDate && ge itemHour (of_Z 12) && le itemHour (of_Z 15)
          then Return (Some item)
          else find_midday targetDate rest
      | _ => Throw
      end
  end.

Definition find_date (targetDate : string) (l : list ForecastItem) : option ForecastItem :=
  List.find (fun item => String.eqb (item_date item) targetDate) l.

Definition getForecastWeather (w : World) (location date : string)
  : Result (option WeatherInfo) :=
  data ← fetch_forecast w location;
  let targetDate := hd EmptyString (split "T" date) in
  targetForecast ← find_midday targetDate data;
  let forecast :=
    match targetForecast with
    | Some item => Some item
    | None =>
        match find_date targetDate data with
        | Some item => Some item
        | None => head data
        end
    end in
  match forecast with
  | None => Return None
  | Some forecast =>
      entry ← first_entry (fi_weather forecast);
      Return (Some {| condition := we_main entry;
                      temperature := fi_temp forecast;
                      description := capitalizeWords (we_description entry);
                      icon := we_icon entry;
                      humidity := Some (fi_humidity forecast);
                      windSpeed := Some (fi_wind_speed forecast) |})
  end.

Definition getCurrentWeatherAsEstimate (w : World) (location : string)
  : Result (option WeatherInfo) :=
  data ← fetch_current w location;
  entry ← first_entry (ow_weather data);
  Return (Some {| condition := we_main entry;
                  temperature := ow_temp data;
                  description := capitalizeWords (we_description entry) +:+ " (estimate)";
                  icon := we_icon entry;
                  humidity := Some (ow_humidity data);
                  windSpeed := Some (ow_wind_speed data) |}).

Section Resolver.

Variable host : Host.

(** [Math.floor((targetDate.getTime() - today.getTime()) / 86400000)];
    NaN for an invalid date.  The division of [Z] rounds down; within the
    range of [Date] the doubles of the source give the same integer. *)
Definition diffDays (w : World) (date : string) : number :=
  match Date_getTime host date with
  | Some t => of_Z ((t - today_midnight w) / 86400000)
  | None => NaN
  end.

Definition getWeatherForDate (w : World) (date location : string) : option WeatherInfo :=
  if negb (truthy_string (OPENWEATHER_API_KEY w)) then Some (getMockWeather date)
  else
    let d := diffDays w date in
    let attempt :=
      if lt d (of_Z 0) then Return (Some (getMockWeather date))
      else if le d (of_Z 5) then getForecastWeather w location date
      else getCurrentWeatherAsEstimate w location in
    match attempt with
    | Return r => r
    | Throw => Some (getMockWeather date)
    end.

End Resolver.

(** ** The merge of extracted data ([updateContext], [isValidStep]) *)

Definition validSteps : list string :=
  [ "greeting";
    "collect_name";
    "collect_guests";
    "collect_date";
    "collect_time";
    "collect_cuisine";
    "collect_location";
    "fetch_weather";
    "suggest_seating";
    "collect_special_requests";
    "confirm_booking";
    "booking_complete" ].

Definition isValidStep (step : string) : bool :=
  existsb (String.eqb step) validSteps.

Definition all_steps : list Step :=
  [ greeting; collect_name; collect_guests; collect_date; collect_time;
    collect_cuisine; collect_location; fetch_weather; suggest_seating;
    collect_special_requests; confirm_booking; booking_complete ].

(** The cast [nextStep as BookingContext["step"]]: the step a name denotes. *)
Definition Step_of_name (name : string) : option Step :=
  List.find (fun s => String.eqb (Step_name s) name) all_steps.

(** [Math.min(20, Math.max(1, n))]. *)
Definition clampGuests (n : number) : number :=
  Math_min (of_Z 20) (Math_max (of_Z 1) n).

(** [if (v) updated = set(v)] for a string-typed [v]. *)
Definition assign_text (v : maybe string)
    (set : option string -> BookingContext -> BookingContext)
    (updated : BookingContext) : BookingContext :=
  match truthy_text v with
  | Some s => set (Some s) updated
  | None => updated
  end.

(** [if (v && typeof v === "number") updated.numberOfGuests = clamp(v)]. *)
Definition assign_guests (v : JsValue) (updated : BookingContext) : BookingContext :=
  match v with
  | VNumber n =>
      if truthy_number n
      then set_numberOfGuests (Some (clampGuests n)) updated
      else updated
  | _ => updated
  end.

(** [if (nextStep && isValidStep(nextStep)) updated.step = nextStep].
    A valid name always denotes a step ([Step_of_name_valid]), so the
    last branch is never taken. *)
Definition assign_step (v : maybe string) (updated : BookingContext) : BookingContext :=
  match truthy_text v with
  | Some nextStep =>
      if isValidStep nextStep then
        match Step_of_name nextStep with
        | Some s => set_step s updated
        | None => updated
        end
      else updated
  | None => updated
  end.

Definition updateContext (context : BookingContext) (parsed : Parsed) : BookingContext :=
  let updated := context in
  let updated :=
    match p_extractedData parsed with
    | Some data =>
        let updated := assign_text (ex_customerName data) set_customerName updated in
        let updated := assign_guests (ex_numberOfGuests data) updated in
        let updated := assign_text (ex_bookingDate data) set_bookingDate updated in
        let updated := assign_text (ex_bookingTime data) set_bookingTime updated in
        let updated := assign_text (ex_cuisinePreference data) set_cuisinePreference updated in
        let updated := assign_text (ex_location data) set_location updated in
        let updated := assign_text (ex_specialRequests data) set_specialRequests updated in
        updated
    | None => updated
    end in
  assign_step (p_nextStep parsed) updated.

(** ** The fallback parser and the language-model adapter *)

(** A populated, non-empty optional string ([if (context.field)]). *)
Definition present (o : option string) : option string :=
  match o with
  | Some s => if truthy_string s then Some s else None
  | None => None
  end.

Definition reply (text : string) (context : BookingContext) : ChatResponse :=
  {| response := text; context := context; bookingComplete := None; booking := None |}.

Section Conversation.

Variable host : Host.

Definition createFallbackResponse (userMessage : string) (context : BookingContext)
  : ChatResponse :=
  let lowerMessage := toLowerCase userMessage in
  if bool_decide (step context = greeting) || includes lowerMessage "hello"
     || includes lowerMessage "hi" then
    reply "Hello! Welcome to our restaurant booking service. I'd be happy to help you reserve a table. May I have your name, please?"
      (set_step collect_name context)
  else if bool_decide (step context = collect_name)
          && negb (bool_decide (is_Some (present (customerName context)))) then
    let words := split " " userMessage in
    let name :=
      if (length words <=? 3)%nat then userMessage else join " " (take 2 words) in
    reply ("Nice to meet you, " +:+ name +:+ "! How many guests will be joining you for dinner?")
      (set_step collect_guests (set_customerName (Some name) context))
  else
    let unmatched :=
      reply "I'm sorry, I didn't quite catch that. Could you please repeat?" context in
    if bool_decide (step context = collect_guests) then
      match match_digits userMessage with
      | Some numMatch =>
          let guests := clampGuests (parseInt numMatch) in
          reply ("Wonderful! A table for " +:+ Number_toString host guests +:+
                 ". What date would you like to book? You can say something like " +:+
                 dquote +:+ "tomorrow" +:+ dquote +:+ " or give me a specific date.")
            (set_step collect_date (set_numberOfGuests (Some guests) context))
      | None => unmatched
      end
    else unmatched.

Definition strict_true (v : JsValue) : bool :=
  match v with
  | VBool true => true
  | _ => false
  end.

Definition processConversation (w : World) (userMessage : string) (context : BookingContext)
  : ChatResponse :=
  match completion w with
  | None => createFallbackResponse userMessage context
  | Some text =>
      match match_json text with
      | None => createFallbackResponse userMessage context
      | Some jsonMatch =>
          match JSON_parse host jsonMatch with
          | None => createFallbackResponse userMessage context
          | Some parsed =>
              let updatedContext := updateContext context parsed in
              {| response :=
                   match truthy_text (p_response parsed) with
                   | Some r => r
                   | None => "I'm sorry, I didn't understand that. Could you please repeat?"
                   end;
                 context := updatedContext;
                 bookingComplete :=
                   Some (strict_true (p_isConfirmed parsed)
                         && bool_decide (step updatedContext = booking_complete));
                 booking := None |}
          end
      end
  end.

End Conversation.

(** ** The in-memory store ([MemStorage]) *)

Definition with_status (s : Status) (b : Booking) : Booking :=
  Booking.mk (Booking.bookingId b) (Booking.customerName b) (Booking.numberOfGuests b)
    (Booking.bookingDate b) (Booking.bookingTime b) (Booking.cuisinePreference b)
    (Booking.location b) (Booking.specialRequests b) (Booking.weatherInfo b)
    (Booking.seatingPreference b) s (Booking.createdAt b).

Module MemStorage.

(** The [bookings] map.  Every stored object is reached through one key
    only, so the in-place update of [deleteBooking] is an update of that
    key's record. *)
Abbreviation t := (gmap string Booking).

Definition empty : t := ∅.

Definition getBooking (id : string) (bookings : t) : option Booking :=
  bookings !! id.

Definition createBooking (w : World) (insertBooking : InsertBooking) (bookings : t)
  : Booking * t :=
  let bookingId := "BK-" +:+ toUpperCase (slice_to 8 (randomUUID w)) in
  let booking :=
    {| Booking.bookingId := bookingId;
       Booking.customerName := Insert.customerName insertBooking;
       Booking.numberOfGuests := Insert.numberOfGuests insertBooking;
       Booking.bookingDate := Insert.bookingDate insertBooking;
       Booking.bookingTime := Insert.bookingTime insertBooking;
       Booking.cuisinePreference := Insert.cuisinePreference insertBooking;
       Booking.location := Insert.location insertBooking;
       Booking.specialRequests := Insert.specialRequests insertBooking;
       Booking.weatherInfo := Insert.weatherInfo insertBooking;
       Booking.seatingPreference := Insert.seatingPreference insertBooking;
       Booking.status := confirmed;
       Booking.createdAt := now_created w |} in
  (booking, <[bookingId := booking]> bookings).

Definition updateBookingStatus (id : string) (status : Status) (bookings : t)
  : option Booking * t :=
  match bookings !! id with
  | None => (None, bookings)
  | Some booking =>
      let updated := with_status status booking in
      (Some updated, <[id := updated]> bookings)
  end.

Definition deleteBooking (id : string) (bookings : t) : bool * t :=
  match bookings !! id with
  | Some booking => (true, <[id := with_status cancelled booking]> bookings)
  | None => (false, bookings)
  end.

End MemStorage.

(** ** The chat route ([POST /api/chat], after the request is validated) *)

Definition includes_any (s : string) (keywords : list string) : bool :=
  existsb (includes s) keywords.

Section Routes.

Variable host : Host.

Definition formatDate (dateString : string) : string :=
  match Date_toLocaleDateString host dateString with
  | Some text => text
  | None => dateString
  end.

Definition line (label : string) (field : option string) : list string :=
  match present field with
  | Some v => [label +:+ v]
  | None => []
  end.

Definition buildBookingSummary (context : BookingContext) : string :=
  join newline
    (line "Name: " (customerName context) ++
     match numberOfGuests context with
     | Some n =>
         if truthy_number n
         then ["Party size: " +:+ Number_toString host n +:+ " guests"]
         else []
     | None => []
     end ++
     match present (bookingDate context) with
     | Some date => ["Date: " +:+ formatDate date]
     | None => []
     end ++
     line "Time: " (bookingTime context) ++
     line "Cuisine: " (cuisinePreference context) ++
     line "Location: " (location context) ++
     match seatingPreference context with
     | Some no_preference | None => []
     | Some s => ["Seating: " +:+ Seating_name s]
     end ++
     line "Special requests: " (specialRequests context)).

(** The [fetch_weather] step: answers only when location and date are
    known and the resolver has a summary. *)
Definition weatherTurn (w : World) (context : BookingContext) : option ChatResponse :=
  if bool_decide (step context = fetch_weather) then
    match present (location context), present (bookingDate context) with
    | Some loc, Some date =>
        match getWeatherForDate host w date loc with
        | Some weather =>
            let seatingResponse :=
              generateSeatingResponse host (condition weather) (temperature weather) in
            Some (reply (seating_response seatingResponse)
                    (set_step suggest_seating
                       (set_seatingPreference (Some (preference seatingResponse))
                          (set_weatherInfo (Some weather) context))))
        | None => None
        end
    | _, _ => None
    end
  else None.

Definition seatingTurn (message : string) (context : BookingContext) : ChatResponse :=
  let lowerMessage := toLowerCase message in
  let preference :=
    if includes_any lowerMessage ["outdoor"; "outside"; "patio"] then outdoor
    else if includes_any lowerMessage ["indoor"; "inside"] then indoor
    else if includes_any lowerMessage ["yes"; "sure"; "sounds good"] then
      default indoor (seatingPreference context)
    else default no_preference (seatingPreference context) in
  reply ("Great choice! " +:+
         (if bool_decide (preference = outdoor) then "Outdoor" else "Indoor") +:+
         " seating it is. Do you have any special requests? For example, is this for a birthday, anniversary, or do you have any dietary requirements? If not, just say " +:+
         dquote +:+ "no special requests" +:+ dquote +:+ ".")
    (set_step collect_special_requests
       (set_seatingPreference (Some preference) context)).

Definition specialRequestsTurn (message : string) (context : BookingContext) : ChatResponse :=
  let lowerMessage := toLowerCase message in
  let hasNoRequests := includes_any lowerMessage ["no"; "none"; "nothing"] in
  let specialRequests := if hasNoRequests then None else Some message in
  let updatedContext :=
    set_step confirm_booking (set_specialRequests specialRequests context) in
  let summary := buildBookingSummary updatedContext in
  reply ("Perfect! Let me confirm your booking details:" +:+ newline +:+ newline +:+
         summary +:+ newline +:+ newline +:+
         "Is everything correct? Say " +:+ dquote +:+ "yes" +:+ dquote +:+ " or " +:+
         dquote +:+ "confirm" +:+ dquote +:+
         " to complete your booking, or let me know what you'd like to change.")
    updatedContext.

Definition confirmationWords : list string :=
  ["yes"; "confirm"; "correct"; "looks good"; "that's right"].

Definition isConfirmed (message : string) : bool :=
  includes_any (toLowerCase message) confirmationWords.

(** The payload of the confirmation: [field || fallback] for each field. *)
Definition bookingData (w : World) (context : BookingContext) : InsertBooking :=
  {| Insert.customerName := default "Guest" (present (customerName context));
     Insert.numberOfGuests :=
       match numberOfGuests context with
       | Some n => if truthy_number n then n else of_Z 2
       | None => of_Z 2
       end;
     Insert.bookingDate :=
       default (hd EmptyString (split "T" (now_default w))) (present (bookingDate context));
     Insert.bookingTime := default "7:00 PM" (present (bookingTime context));
     Insert.cuisinePreference := default "Any" (present (cuisinePreference context));
     Insert.location := default "Unknown" (present (location context));
     Insert.specialRequests := specialRequests context;
     Insert.weatherInfo := weatherInfo context;
     Insert.seatingPreference := default no_preference (seatingPreference context) |}.

Definition confirmTurn (w : World) (bookings : MemStorage.t) (context : BookingContext)
  : ChatResponse * MemStorage.t :=
  let '(booking, bookings') := MemStorage.createBooking w (bookingData w context) bookings in
  ({| response :=
        "Wonderful! Your booking has been confirmed! Your booking ID is " +:+
        Booking.bookingId booking +:+ ". We look forward to seeing you, " +:+
        Booking.customerName booking +:+ ", on " +:+
        formatDate (Booking.bookingDate booking) +:+ " at " +:+
        Booking.bookingTime booking +:+ ". Thank you for choosing our restaurant!";
      context := set_step booking_complete context;
      bookingComplete := Some true;
      booking := Some booking |},
   bookings').

(** The turn handed to the language model, and the weather look-up that
    follows it once location and date are known. *)
Definition modelTurn (w : World) (message : string) (context : BookingContext)
  : ChatResponse :=
  let geminiContext :=
    if bool_decide (step context = greeting) then set_step collect_name context
    else context in
  let result := processConversation host w message geminiContext in
  let '(mkChatResponse text resultContext complete stored) := result in
  match present (location resultContext), present (bookingDate resultContext) with
  | Some loc, Some date =>
      if negb (bool_decide (is_Some (weatherInfo resultContext)))
         && negb (bool_decide (step resultContext = fetch_weather)) then
        match getWeatherForDate host w date loc with
        | Some weather =>
            let seatingResponse :=
              generateSeatingResponse host (condition weather) (temperature weather) in
            mkChatResponse
              (text +:+ newline +:+ newline +:+ seating_response seatingResponse)
              (set_step suggest_seating
                 (set_seatingPreference (Some (preference seatingResponse))
                    (set_weatherInfo (Some weather) resultContext)))
              complete stored
        | None => mkChatResponse text (set_step fetch_weather resultContext) complete stored
        end
      else result
  | _, _ => result
  end.

Definition chat (w : World) (bookings : MemStorage.t) (message : string)
    (context : BookingContext) : ChatResponse * MemStorage.t :=
  match weatherTurn w context with
  | Some answer => (answer, bookings)
  | None =>
      if bool_decide (step context = suggest_seating) then
        (seatingTurn message context, bookings)
      else if bool_decide (step context = collect_special_requests) then
        (specialRequestsTurn message context, bookings)
      else if bool_decide (step context = confirm_booking) && isConfirmed message then
        confirmTurn w bookings context
      else (modelTurn w message context, bookings)
  end.

End Routes.

(** ** Predicates of the specification *)

Fixpoint string_forallb (p : ascii -> bool) (s : string) : bool :=
  match s with
  | EmptyString => true
  | String c r => p c && string_forallb p r
  end.

(** The guest count lies in [1, 20]. *)
Definition in_guest_range (n : number) : bool := le (of_Z 1) n && le n (of_Z 20).

(** A booking identifier of the form BK-[A-Z0-9]{8}. *)
Definition is_booking_id (s : string) : bool :=
  match s with
  | String "B" (String "K" (String "-" r)) =>
      (String.length r =? 8)%nat && string_forallb (fun c => is_upper c || is_digit c) r
  | _ => false
  end.

(** The shape of what [randomUUID()] returns: 8-4-4-4-12 lower-case
    hexadecimal digits. *)
Definition is_hex (c : ascii) : bool :=
  is_digit c || ((97 <=? code c) && (code c <=? 102))%N.

Definition is_hyphen (c : ascii) : bool := Ascii.eqb c "-".

Definition uuid_shape : list (ascii -> bool) :=
  repeat is_hex 8 ++ [is_hyphen] ++ repeat is_hex 4 ++ [is_hyphen] ++
  repeat is_hex 4 ++ [is_hyphen] ++ repeat is_hex 4 ++ [is_hyphen] ++ repeat is_hex 12.

Fixpoint fits (shape : list (ascii -> bool)) (s : string) : bool :=
  match shape, s with
  | [], EmptyString => true
  | p :: shape', String c r => p c && fits shape' r
  | _, _ => false
  end.

Definition is_uuid (s : string) : bool := fits uuid_shape s.

(** A word that begins with an upper-case letter; a word that does not
    begin with a lower-case letter. *)
Definition starts_upper (word : string) : bool :=
  match word with
  | String c _ => is_upper c
  | EmptyString => false
  end.


(** Every space-separated word begins with an upper-case letter. *)
Definition capitalized (s : string) : bool := forallb starts_upper (split " " s).


(** The value an extraction holds for a string field, undefined when there
    is no extraction object. *)
Definition extracted_text (field : Extracted -> maybe string) (parsed : Parsed)
  : maybe string :=
  match p_extractedData parsed with
  | Some data => field data
  | None => Undefined
  end.

Definition extracted_guests (parsed : Parsed) : JsValue :=
  match p_extractedData parsed with
  | Some data => ex_numberOfGuests data
  | None => VUndefined
  end.

(** Absent or undefined, null, or empty. *)
Definition no_text (v : maybe string) : Prop :=
  v = Undefined \/ v = Null \/ v = Val EmptyString.

Definition no_value (v : JsValue) : Prop :=
  v = VUndefined \/ v = VNull \/ v = VString EmptyString.

(** The time of the requested date lies before the start of the current day. *)
Definition before_today (host : Host) (w : World) (date : string) : Prop :=
  exists t, Date_getTime host date = Some t /\ (t < today_midnight w)%Z.

(** The call the resolver makes to the weather service, once the credential
    is there and the date is not in the past. *)
Definition upstreamCall (host : Host) (w : World) (date location : string)
  : Result (option WeatherInfo) :=
  if le (diffDays host w date) (of_Z 5) then getForecastWeather w location date
  else getCurrentWeatherAsEstimate w location.

(** The calendar day of the clock when the booking payload is built
    ([new Date().toISOString().split("T")[0]]). *)
Definition today (w : World) : string := hd EmptyString (split "T" (now_default w)).

(** A word without the separator in it. *)
Definition free_of (sep : ascii) (word : string) : bool :=
  string_forallb (fun c => negb (Ascii.eqb c sep)) word.

(** The three cases in which the resolver has no live answer: no
    credential, a date before today, a call that throws. *)
Definition falls_back (host : Host) (w : World) (date location : string) : Prop :=
  OPENWEATHER_API_KEY w = EmptyString \/
  before_today host w date \/
  upstreamCall host w date location = Throw.

(** An extraction without any field. *)
Definition noExtraction : Extracted :=
  mkExtracted Undefined VUndefined Undefined Undefined Undefined Undefined Undefined.

(** ** A host and worlds to run the engine on *)

Module Sample.

(** Prints an integer in decimal and any other number as a fraction; the
    date functions know one day. *)
Definition showZ (z : Z) : string :=
  DecimalString.NilZero.string_of_int (Z.to_int z).

Definition show (n : number) : string :=
  match n with
  | NaN => "NaN"
  | PosInf => "Infinity"
  | NegInf => "-Infinity"
  | Fin q =>
      if (Zpos (Qden q) =? 1)%Z then showZ (Qnum q)
      else showZ (Qnum q) +:+ "/" +:+ showZ (Zpos (Qden q))
  end.

Definition host : Host :=
  {| Number_toString := show;
     Date_getTime := fun s =>
       if String.eqb s "2020-01-01" then Some 1577836800000%Z
       else if String.eqb s "2030-01-03" then Some 1893628800000%Z
       else if String.eqb s "2030-03-01" then Some 1898553600000%Z
       else None;
     Date_toLocaleDateString := fun s =>
       if String.eqb s "2030-01-03" then Some "Thursday, January 3, 2030" else None;
     JSON_parse := fun _ => None |}.

Definition clearSky : WeatherEntry := mkWeatherEntry "Clear" "clear sky" "01d".

(** 2030-01-01 00:00 UTC, no credential, a service that always fails. *)
Definition offline : World :=
  {| OPENWEATHER_API_KEY := EmptyString;
     today_midnight := 1893456000000;
     fetch_forecast := fun _ => Throw;
     fetch_current := fun _ => Throw;
     now_default := "2030-01-01T10:15:00.000Z";
     now_created := "2030-01-01T10:15:00.002Z";
     randomUUID := "3f2a9c1e-7b4d-4e8a-9c0f-5d6e7f8a9b0c";
     completion := None |}.

(** The same day with a credential and a service that answers. *)
Definition online : World :=
  {| OPENWEATHER_API_KEY := "key";
     today_midnight := 1893456000000;
     fetch_forecast := fun _ =>
       Return [ mkForecastItem "2030-01-03 09:00:00" [clearSky] (of_Z 8) (of_Z 60) (of_Z 3);
                mkForecastItem "2030-01-03 12:00:00" [clearSky] (of_Z 14) (of_Z 55) (of_Z 4) ];
     fetch_current := fun _ =>
       Return (mkOpenWeatherResponse [clearSky] (of_Z 12) (of_Z 70) (of_Z 5));
     now_default := "2030-01-01T10:15:00.000Z";
     now_created := "2030-01-01T10:15:00.002Z";
     randomUUID := "3f2a9c1e-7b4d-4e8a-9c0f-5d6e7f8a9b0c";
     completion := None |}.

(** A credential, and a service that fails. *)
Definition failing : World :=
  {| OPENWEATHER_API_KEY := "key";
     today_midnight := 1893456000000;
     fetch_forecast := fun _ => Throw;
     fetch_current := fun _ => Throw;
     now_default := "2030-01-01T10:15:00.000Z";
     now_created := "2030-01-01T10:15:00.002Z";
     randomUUID := "3f2a9c1e-7b4d-4e8a-9c0f-5d6e7f8a9b0c";
     completion := None |}.


(** A credential, and a forecast without entries. *)
Definition silent : World :=
  {| OPENWEATHER_API_KEY := "key";
     today_midnight := 1893456000000;
     fetch_forecast := fun _ => Return [];
     fetch_current := fun _ => Throw;
     now_default := "2030-01-01T10:15:00.000Z";
     now_created := "2030-01-01T10:15:00.002Z";
     randomUUID := "3f2a9c1e-0000-4e8a-9c0f-5d6e7f8a9b0c";
     completion := None |}.

(** A model that answers, and a host whose JSON.parse reads every answer
    as a confirmation that proposes the last step. *)
Definition talking : World :=
  {| OPENWEATHER_API_KEY := EmptyString;
     today_midnight := 1893456000000;
     fetch_forecast := fun _ => Throw;
     fetch_current := fun _ => Throw;
     now_default := "2030-01-01T10:15:00.000Z";
     now_created := "2030-01-01T10:15:00.002Z";
     randomUUID := "3f2a9c1e-7b4d-4e8a-9c0f-5d6e7f8a9b0c";
     completion := Some "All set! {...}" |}.

Definition agreeing : Host :=
  {| Number_toString := show;
     Date_getTime := fun _ => None;
     Date_toLocaleDateString := fun _ => None;
     JSON_parse := fun _ =>
       Some (mkParsed (Val "All set!") None (Val "booking_complete") (VBool true)) |}.

(** A forecast whose time stamps have a T where the service puts a space. *)
Definition garbled : World :=
  {| OPENWEATHER_API_KEY := "key";
     today_midnight := 1893456000000;
     fetch_forecast := fun _ =>
       Return [ mkForecastItem "2030-01-03T12:00:00" [clearSky] (of_Z 14) (of_Z 55) (of_Z 4) ];
     fetch_current := fun _ => Throw;
     now_default := "2030-01-01T10:15:00.000Z";
     now_created := "2030-01-01T10:15:00.002Z";
     randomUUID := "3f2a9c1e-7b4d-4e8a-9c0f-5d6e7f8a9b0c";
     completion := None |}.

Definition blank (s : Step) : BookingContext :=
  mkContext None None None None None None None None None s.

(** Scenario C of the specification. *)
Definition ana : BookingContext :=
  mkContext (Some "Ana") (Some (of_Z 2)) None None None None None None None confirm_booking.

Definition paris : BookingContext :=
  mkContext None None None None None (Some "Paris") None None None collect_date.

Definition guests (v : JsValue) : Parsed :=
  mkParsed Undefined
    (Some (mkExtracted Undefined v Undefined Undefined Undefined Undefined Undefined))
    Undefined VUndefined.

End Sample.

(** ** The booking and weather routes

    [POST /api/bookings] after its payload is validated,
    [GET /api/bookings/:id], [DELETE /api/bookings/:id] and
    [GET /api/weather/:location/:date].  An answer is a status with a JSON
    body, or a status with an error text. *)

Inductive Answer (A : Type) : Type :=
| Json (status : nat) (body : A)
| Failure (status : nat) (error : string).
Arguments Json {A} status body.
Arguments Failure {A} status error.

Definition status_of {A : Type} (a : Answer A) : nat :=
  match a with
  | Json status _ => status
  | Failure status _ => status
  end.

(** The body of a cancellation: [{ message, bookingId }]. *)
Record Cancelled : Type := mkCancelled {
  cancel_message : string;
  cancel_bookingId : string
}.

Definition createBookingRoute (w : World) (payload : InsertBooking)
    (bookings : MemStorage.t) : Answer Booking * MemStorage.t :=
  let '(booking, bookings') := MemStorage.createBooking w payload bookings in
  (Json 201 booking, bookings').

Definition getBookingRoute (id : string) (bookings : MemStorage.t) : Answer Booking :=
  match MemStorage.getBooking id bookings with
  | Some booking => Json 200 booking
  | None => Failure 404 "Booking not found"
  end.

Definition deleteBookingRoute (id : string) (bookings : MemStorage.t)
  : Answer Cancelled * MemStorage.t :=
  let '(deleted, bookings') := MemStorage.deleteBooking id bookings in
  if deleted
  then (Json 200 (mkCancelled "Booking cancelled successfully" id), bookings')
  else (Failure 404 "Booking not found", bookings').

Definition weatherRoute (host : Host) (w : World) (location date : string)
  : Answer WeatherInfo :=
  match getWeatherForDate host w date location with
  | Some weather => Json 200 weather
  | None => Failure 404 "Weather data not available"
  end.

(** ** Further predicates *)

(** The test of the first [find] of the forecast: an entry of the target
    date whose hour lies in the window 12 to 15. *)
Definition is_midday (targetDate : string) (item : ForecastItem) : bool :=
  match split " " (dt_txt item) with
  | itemDate :: clock :: _ =>
      let itemHour := parseInt (hd EmptyString (split ":" clock)) in
      String.eqb itemDate targetDate && ge itemHour (of_Z 12) && le itemHour (of_Z 15)
  | _ => false
  end.

(** The summary the forecast path builds from an entry of the list and the
    first element of its [weather] array. *)
Definition forecast_summary (item : ForecastItem) (entry : WeatherEntry) : WeatherInfo :=
  {| condition := we_main entry;
     temperature := fi_temp item;
     description := capitalizeWords (we_description entry);
     icon := we_icon entry;
     humidity := Some (fi_humidity item);
     windSpeed := Some (fi_wind_speed item) |}.

(** What the resolver returns for an attempt: its result, or the synthetic
    summary when it throws. *)
Definition or_synthetic (date : string) (attempt : Result (option WeatherInfo))
  : option WeatherInfo :=
  match attempt with
  | Return r => r
  | Throw => Some (getMockWeather date)
  end.

(** One pass over the characters: a character is upper-cased when it opens
    the string or follows a space. *)
Fixpoint capitalizeFrom (start : bool) (s : string) : string :=
  match s with
  | EmptyString => EmptyString
  | String c r =>
      if Ascii.eqb c " " then String c (capitalizeFrom true r)
      else String (if start then upper_char c else c) (capitalizeFrom false r)
  end.

(** A word that begins with an ASCII letter. *)
Definition starts_letter (word : string) : bool :=
  match word with
  | String c _ => is_lower c || is_upper c
  | EmptyString => false
  end.


(** A text of ASCII characters only, on which the case mapping of the
    embedding is the one of JavaScript. *)
Definition is_ascii_text (s : string) : bool :=
  string_forallb (fun c => (code c <? 128)%N) s.

(** The length of the forecast window: six days in milliseconds. *)
Definition forecast_window : Z := 6 * 86400000.

(** The contexts agree on every field but the step. *)
Definition same_fields (a b : BookingContext) : Prop :=
  set_step (step b) a = b.

(** * Properties *)

(** ** The engine on the scenarios of the specification *)

(** Scenario A: a greeting moves the conversation to collect_name. *)
Example scenario_greeting :
  step (context (fst (chat Sample.host Sample.offline MemStorage.empty "hello"
                        (Sample.blank greeting)))) = collect_name.
Proof. reflexivity. Qed.

(** Scenario B: once location and date are known the weather is attached
    and a seating is suggested. *)
Example scenario_weather :
  let answer :=
    fst (chat Sample.host Sample.online MemStorage.empty "ok"
           (set_step fetch_weather (set_bookingDate (Some "2030-01-03") Sample.paris))) in
  step (context answer) = suggest_seating /\
  seatingPreference (context answer) = Some outdoor /\
  (description <$> weatherInfo (context answer)) = Some "Clear Sky".
Proof. repeat split. Qed.

(** Scenario D: declining special requests leaves them unset. *)
Example scenario_no_requests :
  let answer :=
    fst (chat Sample.host Sample.offline MemStorage.empty "no thanks"
           (Sample.blank collect_special_requests)) in
  specialRequests (context answer) = None /\ step (context answer) = confirm_booking.
Proof. repeat split. Qed.

(** The fallback parser reads the first run of digits and clamps it. *)
Example fallback_guests :
  numberOfGuests (context (fst (chat Sample.host Sample.offline MemStorage.empty
                                  "we will be 25, maybe 3 more" (Sample.blank collect_guests))))
    = Some (of_Z 20).
Proof. reflexivity. Qed.

(** The synthetic weather of a date: its character codes add up to 484. *)
Example mock_weather :
  getMockWeather "2024-01-01" =
    mkWeatherInfo "Clear" (of_Z 27) "Clear sky" "01d" (Some (of_Z 54)) (Some (of_Z 6)).
Proof. reflexivity. Qed.

(** ** Numbers *)

Lemma Qlt_bool_iff (x y : Q) : Qlt_bool x y = true <-> (x < y)%Q.
Proof.
  unfold Qlt_bool. rewrite negb_true_iff. split.
  - intros H. apply Qnot_le_lt. intros Hle. apply Qle_bool_iff in Hle. congruence.
  - intros H. destruct (Qle_bool y x) eqn:E; [|reflexivity].
    apply Qle_bool_iff in E. exfalso. apply (Qlt_not_le _ _ H E).
Qed.

Lemma Qle_bool_of_lt (x y : Q) : Qlt_bool x y = true -> Qle_bool x y = true.
Proof.
  intros H. apply Qlt_bool_iff in H. apply Qle_bool_iff. apply Qlt_le_weak, H.
Qed.

(** No integer is closer to [q] than [round_half_up q]. *)
Lemma round_half_up_nearest (q : Q) (k : Z) :
  (Qabs (inject_Z (round_half_up q) - q) <= Qabs (inject_Z k - q))%Q.
Proof.
  unfold round_half_up.
  pose proof (Qfloor_le (q + (1 # 2))) as Hlo.
  pose proof (Qlt_floor (q + (1 # 2))) as Hhi.
  set (r := Qfloor (q + (1 # 2))) in *.
  rewrite inject_Z_plus in Hhi. change (inject_Z 1) with 1%Q in Hhi.
  destruct (Z.lt_trichotomy k r) as [Hk | [Hk | Hk]].
  - assert (inject_Z k + 1 <= inject_Z r)%Q as Hle.
    { assert (k + 1 <= r)%Z as H1 by lia. rewrite (Zle_Qle (k + 1) r) in H1.
      rewrite inject_Z_plus in H1. exact H1. }
    apply Qabs_case; intros; apply Qabs_case; intros; lra.
  - subst k. apply Qle_refl.
  - assert (inject_Z r + 1 <= inject_Z k)%Q as Hle.
    { assert (r + 1 <= k)%Z as H1 by lia. rewrite (Zle_Qle (r + 1) k) in H1.
      rewrite inject_Z_plus in H1. exact H1. }
    apply Qabs_case; intros; apply Qabs_case; intros; lra.
Qed.

Lemma truthy_number_not_NaN (n : number) : truthy_number n = true -> n <> NaN.
Proof. destruct n; simpl; congruence. Qed.

(** [Math.min(20, Math.max(1, n))] lies in [1, 20] for every number but NaN. *)
Lemma clampGuests_range (n : number) :
  n <> NaN -> in_guest_range (clampGuests n) = true.
Proof.
  intros Hn. destruct n as [| | |q]; try reflexivity; [congruence|].
  unfold clampGuests, Math_max, of_Z, lt.
  destruct (Qlt_bool (inject_Z 1) q) eqn:H1.
  - unfold Math_min, lt. destruct (Qlt_bool q (inject_Z 20)) eqn:H20.
    + unfold in_guest_range, le, of_Z.
      rewrite (Qle_bool_of_lt _ _ H1), (Qle_bool_of_lt _ _ H20). reflexivity.
    + reflexivity.
  - reflexivity.
Qed.

(** ** The seating rule *)

(** C2.  [generateSeatingResponse] answers every (condition, temperature)
    pair with one of indoor, outdoor and no_preference, the first rule that
    applies deciding: the lower-cased condition contains rain, storm or snow:
    indoor; else temperature > 30: indoor; else temperature < 10: indoor;
    else the condition contains clear or sunny: outdoor; else no_preference.
    The temperature every rationale quotes is [Math.round] of the
    temperature, which for a finite temperature is an integer no other
    integer is closer to. *)
Theorem generateSeatingResponse_precedence
    (host : Host) (weatherCondition : string) (temp : number) :
  let c := toLowerCase weatherCondition in
  let wet := includes c "rain" || includes c "storm" || includes c "snow" in
  let fair := includes c "clear" || includes c "sunny" in
  let r := generateSeatingResponse host weatherCondition temp in
  let quoted := Number_toString host (Math_round temp) in
  (preference r = indoor \/ preference r = outdoor \/ preference r = no_preference) /\
  (wet = true -> preference r = indoor) /\
  (wet = false -> gt temp (of_Z 30) = true ->
     preference r = indoor /\
     seating_response r =
       "It's going to be quite warm at " +:+ quoted +:+
       "°C on your booking date. Our air-conditioned indoor seating would be more comfortable. Would you prefer that?") /\
  (wet = false -> gt temp (of_Z 30) = false -> lt temp (of_Z 10) = true ->
     preference r = indoor /\
     seating_response r =
       "It's going to be a bit chilly at " +:+ quoted +:+
       "°C on your booking date. Our warm indoor seating would be perfect. Sound good?") /\
  (wet = false -> gt temp (of_Z 30) = false -> lt temp (of_Z 10) = false -> fair = true ->
     preference r = outdoor /\
     seating_response r =
       "Great news! The weather looks beautiful on your booking date - " +:+ quoted +:+
       "°C and " +:+ c +:+ "! Would you like outdoor seating to enjoy the lovely weather?") /\
  (wet = false -> gt temp (of_Z 30) = false -> lt temp (of_Z 10) = false -> fair = false ->
     preference r = no_preference /\
     seating_response r =
       "The weather on your booking date looks fine - around " +:+ quoted +:+
       "°C. Would you prefer indoor or outdoor seating?") /\
  (forall q, temp = Fin q ->
     exists z, Math_round temp = of_Z z /\
       forall k, (Qabs (inject_Z z - q) <= Qabs (inject_Z k - q))%Q).
Proof.
  intros c wet fair r quoted.
  assert (forall q, temp = Fin q ->
            exists z, Math_round temp = of_Z z /\
              forall k, (Qabs (inject_Z z - q) <= Qabs (inject_Z k - q))%Q) as Hround.
  { intros q ->. exists (round_half_up q). split; [reflexivity|].
    apply round_half_up_nearest. }
  subst r. unfold generateSeatingResponse. fold c. fold wet. fold fair.
  destruct wet, (gt temp (of_Z 30)), (lt temp (of_Z 10)), fair; cbv beta iota;
    repeat split; intros; try discriminate; auto.
Qed.

Lemma generateSeatingResponse_precedence_witness :
  preference (generateSeatingResponse Sample.host "Rain" (of_Z 35)) = indoor /\
  seating_response (generateSeatingResponse Sample.host "Clouds" (Fin (61 # 2))) =
    "It's going to be quite warm at 31°C on your booking date. Our air-conditioned indoor seating would be more comfortable. Would you prefer that?" /\
  preference (generateSeatingResponse Sample.host "Clouds" (of_Z 5)) = indoor /\
  preference (generateSeatingResponse Sample.host "Clear" (of_Z 22)) = outdoor /\
  preference (generateSeatingResponse Sample.host "Clouds" (of_Z 22)) = no_preference /\
  (exists z, Math_round (Fin (61 # 2)) = of_Z z /\
     forall k, (Qabs (inject_Z z - (61 # 2)) <= Qabs (inject_Z k - (61 # 2)))%Q).
Proof.
  split.
  { destruct (generateSeatingResponse_precedence Sample.host "Rain" (of_Z 35))
      as (_ & Hwet & _).
    apply Hwet. reflexivity. }
  split.
  { destruct (generateSeatingResponse_precedence Sample.host "Clouds" (Fin (61 # 2)))
      as (_ & _ & Hhot & _).
    apply Hhot; reflexivity. }
  split.
  { destruct (generateSeatingResponse_precedence Sample.host "Clouds" (of_Z 5))
      as (_ & _ & _ & Hcold & _).
    apply Hcold; reflexivity. }
  split.
  { destruct (generateSeatingResponse_precedence Sample.host "Clear" (of_Z 22))
      as (_ & _ & _ & _ & Hfair & _).
    apply Hfair; reflexivity. }
  split.
  { destruct (generateSeatingResponse_precedence Sample.host "Clouds" (of_Z 22))
      as (_ & _ & _ & _ & _ & Hplain & _).
    apply Hplain; reflexivity. }
  destruct (generateSeatingResponse_precedence Sample.host "Clouds" (Fin (61 # 2)))
    as (_ & _ & _ & _ & _ & _ & Hround).
  apply (Hround (61 # 2)). reflexivity.
Defined.

(** ** The merge *)

Lemma assign_text_other {A : Type} (f : BookingContext -> A)
    (set : option string -> BookingContext -> BookingContext) v c :
  (forall o c', f (set o c') = f c') -> f (assign_text v set c) = f c.
Proof. intros H. unfold assign_text. destruct (truthy_text v); auto. Qed.

Lemma assign_guests_other {A : Type} (f : BookingContext -> A) v c :
  (forall o c', f (set_numberOfGuests o c') = f c') -> f (assign_guests v c) = f c.
Proof.
  intros H. unfold assign_guests.
  destruct v as [| | |n| |]; try reflexivity. destruct (truthy_number n); auto.
Qed.

Lemma assign_step_other {A : Type} (f : BookingContext -> A) v c :
  (forall s c', f (set_step s c') = f c') -> f (assign_step v c) = f c.
Proof.
  intros H. unfold assign_step.
  destruct (truthy_text v) as [n|]; [|reflexivity].
  destruct (isValidStep n); [|reflexivity].
  destruct (Step_of_name n); auto.
Qed.

(** Rewrites the projection [f] through the assignments that do not write it. *)
Ltac frame f :=
  repeat first
    [ rewrite (assign_step_other f) by reflexivity
    | rewrite (assign_text_other f) by reflexivity
    | rewrite (assign_guests_other f) by reflexivity ].

Lemma truthy_text_no_text (v : maybe string) : no_text v -> truthy_text v = None.
Proof. intros [-> | [-> | ->]]; reflexivity. Qed.

Lemma assign_text_no_text
    (set : option string -> BookingContext -> BookingContext) v c :
  no_text v -> assign_text v set c = c.
Proof. intros H. unfold assign_text. rewrite truthy_text_no_text by exact H. reflexivity. Qed.

Lemma assign_guests_no_value v c : no_value v -> assign_guests v c = c.
Proof. intros [-> | [-> | ->]]; reflexivity. Qed.

(** C5.  The merge leaves a field of the context as it was whenever the
    extraction holds no value for it (the extraction object or the field is
    absent or undefined, or the field is null or empty); the seating
    preference and the weather summary are never written by the merge. *)
Theorem updateContext_keeps_populated (context : BookingContext) (parsed : Parsed) :
  let merged := updateContext context parsed in
  (no_text (extracted_text ex_customerName parsed) ->
     customerName merged = customerName context) /\
  (no_value (extracted_guests parsed) ->
     numberOfGuests merged = numberOfGuests context) /\
  (no_text (extracted_text ex_bookingDate parsed) ->
     bookingDate merged = bookingDate context) /\
  (no_text (extracted_text ex_bookingTime parsed) ->
     bookingTime merged = bookingTime context) /\
  (no_text (extracted_text ex_cuisinePreference parsed) ->
     cuisinePreference merged = cuisinePreference context) /\
  (no_text (extracted_text ex_location parsed) ->
     location merged = location context) /\
  (no_text (extracted_text ex_specialRequests parsed) ->
     specialRequests merged = specialRequests context) /\
  seatingPreference merged = seatingPreference context /\
  weatherInfo merged = weatherInfo context.
Proof.
  unfold updateContext, extracted_text, extracted_guests.
  destruct (p_extractedData parsed) as [data|]; cbv zeta.
  - repeat split; try intros Hno.
    + frame customerName. rewrite assign_text_no_text by auto. reflexivity.
    + frame numberOfGuests. rewrite assign_guests_no_value by auto.
      frame numberOfGuests. reflexivity.
    + frame bookingDate. rewrite assign_text_no_text by auto.
      frame bookingDate. reflexivity.
    + frame bookingTime. rewrite assign_text_no_text by auto.
      frame bookingTime. reflexivity.
    + frame cuisinePreference. rewrite assign_text_no_text by auto.
      frame cuisinePreference. reflexivity.
    + frame location. rewrite assign_text_no_text by auto.
      frame location. reflexivity.
    + frame specialRequests. rewrite assign_text_no_text by auto.
      frame specialRequests. reflexivity.
    + frame seatingPreference. reflexivity.
    + frame weatherInfo. reflexivity.
  - repeat split; intros;
      first [ frame customerName; reflexivity | frame numberOfGuests; reflexivity
            | frame bookingDate; reflexivity | frame bookingTime; reflexivity
            | frame cuisinePreference; reflexivity | frame location; reflexivity
            | frame specialRequests; reflexivity | frame seatingPreference; reflexivity
            | frame weatherInfo; reflexivity ].
Qed.

Lemma updateContext_keeps_populated_witness :
  location (updateContext Sample.paris (Sample.guests (VNumber (of_Z 4)))) = Some "Paris".
Proof.
  destruct (updateContext_keeps_populated Sample.paris (Sample.guests (VNumber (of_Z 4))))
    as (_ & _ & _ & _ & _ & Hlocation & _).
  apply Hlocation. left. reflexivity.
Defined.

(** C6.  Merging with an empty reply (the object without any key, or one
    whose extraction object has no field) and no proposed step returns the
    context itself; so merging an already merged context with it changes
    nothing. *)
Theorem updateContext_empty (ctx : BookingContext) :
  let nothing := mkParsed Undefined None Undefined VUndefined in
  let noFields := mkParsed Undefined (Some noExtraction) Undefined VUndefined in
  updateContext ctx nothing = ctx /\
  updateContext ctx noFields = ctx /\
  (forall parsed,
     updateContext (updateContext ctx parsed) nothing = updateContext ctx parsed /\
     updateContext (updateContext ctx parsed) noFields = updateContext ctx parsed).
Proof. repeat split. Qed.

Lemma isValidStep_In (s : string) : isValidStep s = true <-> In s validSteps.
Proof.
  unfold isValidStep. rewrite existsb_exists. split.
  - intros (x & Hx & Heq). apply String.eqb_eq in Heq. subst. exact Hx.
  - intros H. exists s. split; [exact H | apply String.eqb_refl].
Qed.

Lemma Step_of_name_valid (s : string) :
  In s validSteps -> exists st, Step_of_name s = Some st /\ Step_name st = s.
Proof.
  unfold validSteps. simpl.
  intros H; repeat (destruct H as [<- | H]; [eexists; split; reflexivity|]); destruct H.
Qed.

Lemma Step_name_valid (st : Step) : In (Step_name st) validSteps.
Proof. apply isValidStep_In. destruct st; reflexivity. Qed.

Lemma step_before_assign (ctx : BookingContext) (parsed : Parsed) :
  exists updated,
    updateContext ctx parsed = assign_step (p_nextStep parsed) updated /\
    step updated = step ctx.
Proof.
  unfold updateContext. cbv zeta. eexists. split; [reflexivity|].
  destruct (p_extractedData parsed); [frame step|]; reflexivity.
Qed.

(** C7.  The merge sets the step to the proposed one exactly when the
    proposal is one of the twelve step names; any other proposal leaves the
    step as it was.  The merge is a total function: nothing is raised. *)
Theorem updateContext_step (ctx : BookingContext) (parsed : Parsed) (s : string) :
  p_nextStep parsed = Val s ->
  let merged := updateContext ctx parsed in
  (isValidStep s = true <-> In s validSteps) /\
  (Step_name (step merged) = s <-> In s validSteps) /\
  (~ In s validSteps -> step merged = step ctx).
Proof.
  intros Hnext merged. split; [apply isValidStep_In|].
  destruct (step_before_assign ctx parsed) as (updated & Hmerge & Hstep).
  subst merged. rewrite Hmerge, Hnext. unfold assign_step, truthy_text.
  assert (~ In s validSteps -> isValidStep s = false) as Hreject.
  { intros Hno. destruct (isValidStep s) eqn:E; [|reflexivity].
    apply isValidStep_In in E. contradiction. }
  assert (~ In EmptyString validSteps) as Hempty.
  { intros Hin. apply isValidStep_In in Hin. discriminate. }
  split.
  - split.
    + intros <-. apply Step_name_valid.
    + intros Hin. destruct (Step_of_name_valid s Hin) as (st & Hst & Hname).
      destruct s as [|c r]; [contradiction|]. simpl truthy_string. cbv iota.
      apply isValidStep_In in Hin. rewrite Hin, Hst. exact Hname.
  - intros Hno. destruct s as [|c r]; [exact Hstep|]. simpl truthy_string. cbv iota.
    rewrite (Hreject Hno). exact Hstep.
Qed.

Lemma updateContext_step_witness :
  step (updateContext Sample.paris (mkParsed Undefined None (Val "collect_time") VUndefined))
    = collect_time /\
  step (updateContext Sample.paris (mkParsed Undefined None (Val "finished") VUndefined))
    = collect_date.
Proof.
  split.
  - destruct (updateContext_step Sample.paris
                (mkParsed Undefined None (Val "collect_time") VUndefined)
                "collect_time" eq_refl) as (_ & Haccept & _).
    assert (In "collect_time" validSteps) as Hin by (simpl; tauto).
    apply Haccept in Hin.
    destruct (step (updateContext Sample.paris
                      (mkParsed Undefined None (Val "collect_time") VUndefined)));
      first [reflexivity | discriminate Hin].
  - destruct (updateContext_step Sample.paris
                (mkParsed Undefined None (Val "finished") VUndefined)
                "finished" eq_refl) as (_ & _ & Hreject).
    apply Hreject. intros Hin. apply isValidStep_In in Hin. discriminate Hin.
Defined.

(** ** The guest count *)

Lemma updateContext_guests (ctx : BookingContext) (parsed : Parsed) :
  numberOfGuests (updateContext ctx parsed) =
    match extracted_guests parsed with
    | VNumber n => if truthy_number n then Some (clampGuests n) else numberOfGuests ctx
    | _ => numberOfGuests ctx
    end.
Proof.
  unfold updateContext, extracted_guests. cbv zeta.
  destruct (p_extractedData parsed) as [data|]; frame numberOfGuests; [|reflexivity].
  unfold assign_guests.
  destruct (ex_numberOfGuests data) as [| | |n| |]; frame numberOfGuests; try reflexivity.
  destruct (truthy_number n); frame numberOfGuests; reflexivity.
Qed.

Lemma digit_cases (c : ascii) :
  is_digit c = true ->
  In c ["0"; "1"; "2"; "3"; "4"; "5"; "6"; "7"; "8"; "9"]%char.
Proof.
  destruct c as [[] [] [] [] [] [] [] []]; intros H;
    first [discriminate H | simpl; tauto].
Qed.

Lemma read_digits_seen (s : string) (acc : Z) :
  string_forallb is_digit s = true ->
  exists z, read_digits digit_value 10 s acc true = Some z.
Proof.
  revert acc. induction s as [|c r IH]; intros acc H; simpl.
  - eauto.
  - simpl in H. apply andb_true_iff in H as [Hc Hr].
    unfold digit_value. rewrite Hc. apply IH, Hr.
Qed.

Lemma digit_run_digits (s : string) : string_forallb is_digit (digit_run s) = true.
Proof.
  induction s as [|c r IH]; simpl; [reflexivity|].
  destruct (is_digit c) eqn:E; simpl; [rewrite E; exact IH | reflexivity].
Qed.

Lemma match_digits_shape (s digits : string) :
  match_digits s = Some digits ->
  exists c r, digits = String c r /\ is_digit c = true /\ string_forallb is_digit r = true.
Proof.
  induction s as [|c r IH]; simpl; [discriminate|].
  destruct (is_digit c) eqn:E; [|exact IH].
  intros [= <-]. exists c, (digit_run r). rewrite E. auto using digit_run_digits.
Qed.

(** [parseInt] of a run of digits is an integer, never NaN. *)
Lemma parseInt_digits (c : ascii) (r : string) :
  is_digit c = true -> string_forallb is_digit r = true ->
  exists z, parseInt (String c r) = of_Z z.
Proof.
  intros Hc Hr.
  assert (exists z, read_unsigned (String c r) = Some z) as (z & Hz).
  { assert (exists z, read_digits digit_value 10 (String c r) 0 false = Some z) as Hdec.
    { simpl. unfold digit_value at 1. rewrite Hc. apply read_digits_seen, Hr. }
    apply digit_cases in Hc. simpl in Hc.
    repeat (destruct Hc as [<- | Hc]; [try exact Hdec|]); [|destruct Hc].
    destruct r as [|d r']; [exact Hdec|].
    simpl in Hr. apply andb_true_iff in Hr as [Hd Hr'].
    apply digit_cases in Hd. simpl in Hd.
    repeat (destruct Hd as [<- | Hd]; [exact Hdec|]). destruct Hd. }
  pose proof Hc as Hc'. apply digit_cases in Hc'. simpl in Hc'.
  unfold parseInt.
  repeat (destruct Hc' as [<- | Hc']; [simpl trim_start; cbv iota beta; rewrite Hz; eauto|]).
  destruct Hc'.
Qed.

(** C4.  Whether the merge or the fallback parser writes the guest count,
    the value written is [Math.min(20, Math.max(1, raw))] and lies in
    [1, 20]; otherwise the guest count is the one of the context. *)
Theorem guest_count_clamped
    (host : Host) (ctx : BookingContext) (parsed : Parsed) (message : string) :
  let merged := updateContext ctx parsed in
  let answered := context (createFallbackResponse host message ctx) in
  (numberOfGuests merged = numberOfGuests ctx \/
   exists raw, extracted_guests parsed = VNumber raw /\
     numberOfGuests merged = Some (clampGuests raw) /\
     in_guest_range (clampGuests raw) = true) /\
  (numberOfGuests answered = numberOfGuests ctx \/
   exists digits, match_digits message = Some digits /\
     numberOfGuests answered = Some (clampGuests (parseInt digits)) /\
     in_guest_range (clampGuests (parseInt digits)) = true).
Proof.
  intros merged answered. split.
  - subst merged. rewrite updateContext_guests.
    destruct (extracted_guests parsed) as [| | |n| |]; auto.
    destruct (truthy_number n) eqn:E; auto.
    right. exists n. auto using clampGuests_range, truthy_number_not_NaN.
  - subst answered. unfold createFallbackResponse. cbv zeta.
    destruct (_ || _ || _); [left; reflexivity|].
    destruct (_ && _); [left; reflexivity|].
    destruct (bool_decide (step ctx = collect_guests)); [|left; reflexivity].
    destruct (match_digits message) as [digits|] eqn:E; [|left; reflexivity].
    right. exists digits. repeat split.
    destruct (match_digits_shape _ _ E) as (c & r & -> & Hc & Hr).
    destruct (parseInt_digits c r Hc Hr) as (z & ->).
    apply clampGuests_range. discriminate.
Qed.

(** C10.  A zero proposed for the guest count is dropped, where a negative
    number is clamped up to 1 and assigned. *)
Lemma negative_guests_are_assigned :
  let ctx := Sample.blank collect_guests in
  lt (of_Z 0) (of_Z (-3)) = false /\
  numberOfGuests ctx = None /\
  numberOfGuests (updateContext ctx (Sample.guests (VNumber (of_Z (-3))))) = Some (of_Z 1).
Proof. repeat split. Qed.

(** C10, as the code has it.  When the reply proposes a number for the
    guest count, a zero (like every falsy number) leaves the guest count of
    the context as it was, and every other number, a negative one too, is
    clamped into [1, 20] and assigned: a number below zero gives 1. *)
Theorem updateContext_guests_number
    (ctx : BookingContext) (parsed : Parsed) (n : number) :
  extracted_guests parsed = VNumber n ->
  let merged := updateContext ctx parsed in
  (n = of_Z 0 -> numberOfGuests merged = numberOfGuests ctx) /\
  (truthy_number n = false -> numberOfGuests merged = numberOfGuests ctx) /\
  (truthy_number n = true ->
     numberOfGuests merged = Some (clampGuests n) /\
     in_guest_range (clampGuests n) = true) /\
  (lt n (of_Z 0) = true -> numberOfGuests merged = Some (of_Z 1)).
Proof.
  intros Hn merged. subst merged. rewrite updateContext_guests, Hn.
  split; [intros ->; reflexivity|].
  split; [intros ->; reflexivity|].
  split.
  - intros Ht. rewrite Ht. auto using clampGuests_range, truthy_number_not_NaN.
  - intros Hneg. destruct n as [| | |q]; try discriminate; [reflexivity|].
    unfold lt, of_Z in Hneg. apply Qlt_bool_iff in Hneg.
    assert (truthy_number (Fin q) = true) as ->.
    { simpl. destruct (Qeq_bool q 0) eqn:E; [|reflexivity].
      apply Qeq_bool_iff in E. rewrite E in Hneg. discriminate Hneg. }
    unfold clampGuests, Math_max, lt, of_Z.
    assert (Qlt_bool (inject_Z 1) q = false) as ->.
    { destruct (Qlt_bool (inject_Z 1) q) eqn:E; [|reflexivity].
      apply Qlt_bool_iff in E. change (inject_Z 1) with 1%Q in E.
      change (inject_Z 0) with 0%Q in Hneg. lra. }
    reflexivity.
Qed.

Lemma updateContext_guests_number_witness :
  numberOfGuests (updateContext Sample.ana (Sample.guests (VNumber (of_Z 0)))) = Some (of_Z 2) /\
  numberOfGuests (updateContext Sample.ana (Sample.guests (VNumber (of_Z 45)))) = Some (of_Z 20) /\
  numberOfGuests (updateContext Sample.ana (Sample.guests (VNumber (of_Z (-3))))) = Some (of_Z 1).
Proof.
  split; [|split].
  - destruct (updateContext_guests_number Sample.ana (Sample.guests (VNumber (of_Z 0)))
                (of_Z 0) eq_refl) as (Hzero & _).
    apply Hzero. reflexivity.
  - destruct (updateContext_guests_number Sample.ana (Sample.guests (VNumber (of_Z 45)))
                (of_Z 45) eq_refl) as (_ & _ & Hassign & _).
    apply Hassign. reflexivity.
  - destruct (updateContext_guests_number Sample.ana (Sample.guests (VNumber (of_Z (-3))))
                (of_Z (-3)) eq_refl) as (_ & _ & _ & Hneg).
    apply Hneg. reflexivity.
Defined.

(** ** The store *)

(** C9.  Cancelling an identifier the store holds answers true, keeps the
    record under its identifier with the status cancelled and every other
    field as it was, and touches no other record; cancelling an identifier
    the store does not hold answers false and leaves the store as it was. *)
Theorem deleteBooking_cancels (id : string) (bookings : gmap string Booking) :
  let '(found, bookings') := MemStorage.deleteBooking id bookings in
  (forall b, MemStorage.getBooking id bookings = Some b ->
     found = true /\
     exists b', MemStorage.getBooking id bookings' = Some b' /\
       Booking.status b' = cancelled /\
       Booking.bookingId b' = Booking.bookingId b /\
       Booking.customerName b' = Booking.customerName b /\
       Booking.numberOfGuests b' = Booking.numberOfGuests b /\
       Booking.bookingDate b' = Booking.bookingDate b /\
       Booking.bookingTime b' = Booking.bookingTime b /\
       Booking.cuisinePreference b' = Booking.cuisinePreference b /\
       Booking.location b' = Booking.location b /\
       Booking.specialRequests b' = Booking.specialRequests b /\
       Booking.weatherInfo b' = Booking.weatherInfo b /\
       Booking.seatingPreference b' = Booking.seatingPreference b /\
       Booking.createdAt b' = Booking.createdAt b) /\
  (forall other, other <> id ->
     MemStorage.getBooking other bookings' = MemStorage.getBooking other bookings) /\
  (MemStorage.getBooking id bookings = None -> found = false /\ bookings' = bookings).
Proof.
  unfold MemStorage.deleteBooking, MemStorage.getBooking.
  destruct (bookings !! id) as [b|] eqn:E.
  - split; [|split].
    + intros b0 [= <-]. split; [reflexivity|].
      exists (with_status cancelled b). rewrite lookup_insert_eq.
      repeat split.
    + intros other Hne. apply lookup_insert_ne. congruence.
    + discriminate.
  - split; [|split].
    + discriminate.
    + reflexivity.
    + auto.
Qed.

Lemma deleteBooking_cancels_witness :
  let stored := snd (MemStorage.createBooking Sample.offline
                       (Insert.mk "Ana" (of_Z 2) "2030-01-03" "7:00 PM" "Any" "Paris"
                          None None indoor) MemStorage.empty) in
  fst (MemStorage.deleteBooking "BK-3F2A9C1E" stored) = true /\
  (Booking.status <$> MemStorage.getBooking "BK-3F2A9C1E"
                        (snd (MemStorage.deleteBooking "BK-3F2A9C1E" stored)))
    = Some cancelled /\
  MemStorage.deleteBooking "BK-00000000" stored = (false, stored).
Proof.
  intros stored.
  pose proof (deleteBooking_cancels "BK-3F2A9C1E" stored) as Hheld.
  pose proof (deleteBooking_cancels "BK-00000000" stored) as Hfree.
  destruct (MemStorage.deleteBooking "BK-3F2A9C1E" stored) as [found bookings'].
  destruct (MemStorage.deleteBooking "BK-00000000" stored) as [found0 bookings0].
  destruct Hheld as (Hheld & _). destruct Hfree as (_ & _ & Hfree).
  edestruct Hheld as (Hfound & b' & Hget & Hstatus & _).
  { subst stored. unfold MemStorage.createBooking, MemStorage.getBooking. simpl.
    apply lookup_insert_eq. }
  destruct Hfree as [-> ->].
  { subst stored. unfold MemStorage.createBooking, MemStorage.getBooking. simpl.
    rewrite lookup_insert_ne by discriminate. apply lookup_empty. }
  simpl. rewrite Hget. simpl. rewrite Hstatus. auto.
Defined.

(** ** The weather resolver *)

Lemma diffDays_before_today (host : Host) (w : World) (date : string) :
  before_today host w date -> lt (diffDays host w date) (of_Z 0) = true.
Proof.
  intros (t & Ht & Hlt). unfold diffDays. rewrite Ht. unfold lt, of_Z.
  apply Qlt_bool_iff. rewrite <- Zlt_Qlt.
  apply Z.div_lt_upper_bound; lia.
Qed.

Lemma getWeatherForDate_falls_back (host : Host) (w : World) (date location : string) :
  falls_back host w date location ->
  getWeatherForDate host w date location = Some (getMockWeather date).
Proof.
  intros Hcase. unfold getWeatherForDate.
  destruct (truthy_string (OPENWEATHER_API_KEY w)) eqn:Hkey; [|reflexivity].
  cbv zeta. simpl negb. cbv iota.
  destruct Hcase as [Hnone | [Hpast | Hthrow]].
  - rewrite Hnone in Hkey. discriminate Hkey.
  - rewrite (diffDays_before_today _ _ _ Hpast). reflexivity.
  - destruct (lt (diffDays host w date) (of_Z 0)); [reflexivity|].
    unfold upstreamCall in Hthrow.
    destruct (le (diffDays host w date) (of_Z 5)); rewrite Hthrow; reflexivity.
Qed.

(** C3.  Without a credential, for a date before today, or when the call to
    the weather service throws, the resolver returns the synthetic summary
    of the date.  That summary is computed from the date string alone, so
    two such calls for one date return the same summary, whatever the host,
    the clock, the service and the location are. *)
Theorem getWeatherForDate_synthetic
    (host1 host2 : Host) (w1 w2 : World) (date location1 location2 : string) :
  falls_back host1 w1 date location1 ->
  falls_back host2 w2 date location2 ->
  getWeatherForDate host1 w1 date location1 = Some (getMockWeather date) /\
  getWeatherForDate host1 w1 date location1 = getWeatherForDate host2 w2 date location2.
Proof.
  intros H1 H2.
  rewrite (getWeatherForDate_falls_back _ _ _ _ H1), (getWeatherForDate_falls_back _ _ _ _ H2).
  split; reflexivity.
Qed.

Lemma getWeatherForDate_synthetic_witness :
  getWeatherForDate Sample.host Sample.offline "2030-01-03" "London"
    = Some (getMockWeather "2030-01-03") /\
  getWeatherForDate Sample.host Sample.offline "2030-01-03" "London"
    = getWeatherForDate Sample.host Sample.failing "2030-01-03" "Paris" /\
  getWeatherForDate Sample.host Sample.online "2020-01-01" "London"
    = getWeatherForDate Sample.host Sample.offline "2020-01-01" "Paris".
Proof.
  assert (falls_back Sample.host Sample.offline "2030-01-03" "London") as Hoff.
  { left. reflexivity. }
  assert (falls_back Sample.host Sample.failing "2030-01-03" "Paris") as Hfail.
  { right. right. reflexivity. }
  assert (falls_back Sample.host Sample.online "2020-01-01" "London") as Hpast.
  { right. left. exists 1577836800000%Z. split; [reflexivity | simpl; lia]. }
  assert (falls_back Sample.host Sample.offline "2020-01-01" "Paris") as Hoff'.
  { left. reflexivity. }
  destruct (getWeatherForDate_synthetic Sample.host Sample.host Sample.offline Sample.failing
              "2030-01-03" "London" "Paris" Hoff Hfail) as [Hmock Hsame].
  destruct (getWeatherForDate_synthetic Sample.host Sample.host Sample.online Sample.offline
              "2020-01-01" "London" "Paris" Hpast Hoff') as [_ Hsame'].
  auto.
Defined.

(** ** The description of a weather summary *)

Section SplitJoin.

Variable sep : ascii.

Lemma split_nonempty (s : string) : split sep s <> [].
Proof.
  induction s as [|c r IH]; simpl; [discriminate|].
  destruct (Ascii.eqb c sep); [discriminate|].
  destruct (split sep r); discriminate.
Qed.

Lemma split_words_free (s : string) : forallb (free_of sep) (split sep s) = true.
Proof.
  induction s as [|c r IH]; [reflexivity|].
  cbn [split]. destruct (Ascii.eqb c sep) eqn:E.
  - cbn [forallb]. rewrite IH. reflexivity.
  - destruct (split sep r) as [|word words].
    + cbn [forallb free_of string_forallb]. rewrite E. reflexivity.
    + cbn [forallb] in *. apply andb_true_iff in IH as [Hword Hwords].
      unfold free_of in *. cbn [string_forallb]. rewrite E, Hword, Hwords. reflexivity.
Qed.

Lemma split_free (word : string) : free_of sep word = true -> split sep word = [word].
Proof.
  induction word as [|c r IH]; simpl; [reflexivity|].
  intros H. apply andb_true_iff in H as [Hc Hr]. apply negb_true_iff in Hc.
  rewrite Hc, (IH Hr). reflexivity.
Qed.

Lemma split_app (word rest : string) :
  free_of sep word = true ->
  split sep (word +:+ String sep rest) = word :: split sep rest.
Proof.
  induction word as [|c r IH]; simpl.
  - intros _. rewrite Ascii.eqb_refl. reflexivity.
  - intros H. apply andb_true_iff in H as [Hc Hr]. apply negb_true_iff in Hc.
    rewrite Hc, (IH Hr). reflexivity.
Qed.

(** Splitting what was joined gives the words back. *)
Lemma split_join (words : list string) :
  words <> [] -> forallb (free_of sep) words = true ->
  split sep (join (String sep EmptyString) words) = words.
Proof.
  induction words as [|word rest IH]; [congruence|]. intros _ H.
  simpl in H. apply andb_true_iff in H as [Hword Hrest].
  destruct rest as [|next rest'].
  - simpl. apply split_free, Hword.
  - change (join (String sep EmptyString) (word :: next :: rest'))
      with (word +:+ String sep EmptyString +:+ join (String sep EmptyString) (next :: rest')).
    change (String sep EmptyString +:+ join (String sep EmptyString) (next :: rest'))
      with (String sep (join (String sep EmptyString) (next :: rest'))).
    rewrite split_app by exact Hword. f_equal. apply IH; [discriminate | exact Hrest].
Qed.

End SplitJoin.

(** [word.charAt(0).toUpperCase() + word.slice(1)]. *)
Lemma capitalize_word (word : string) :
  toUpperCase (charAt0 word) +:+ slice_from 1 word =
    match word with
    | String c r => String (upper_char c) r
    | EmptyString => EmptyString
    end.
Proof. destruct word; reflexivity. Qed.


Lemma upper_char_space (c : ascii) :
  Ascii.eqb (upper_char c) " " = Ascii.eqb c " ".
Proof. destruct c as [[] [] [] [] [] [] [] []]; reflexivity. Qed.

Lemma capitalizeWords_words (str : string) :
  split " " (capitalizeWords str) =
    map (fun word => toUpperCase (charAt0 word) +:+ slice_from 1 word) (split " " str).
Proof.
  unfold capitalizeWords. apply split_join.
  - pose proof (split_nonempty " " str) as H. destruct (split " " str); [congruence|discriminate].
  - pose proof (split_words_free " " str) as H.
    induction (split " " str) as [|word rest IH]; [reflexivity|].
    cbn [forallb] in H. apply andb_true_iff in H as [Hword Hrest].
    cbn [map forallb]. apply andb_true_iff. split; [|exact (IH Hrest)].
    rewrite capitalize_word. destruct word as [|c r]; [reflexivity|].
    unfold free_of in *. cbn [string_forallb] in *. rewrite upper_char_space. exact Hword.
Qed.









(** ** The confirmation of a booking *)

Lemma upper_hex (c : ascii) :
  is_hex c = true -> is_upper (upper_char c) || is_digit (upper_char c) = true.
Proof. destruct c as [[] [] [] [] [] [] [] []]; intros H; first [discriminate H | reflexivity]. Qed.

Lemma fits_hex_prefix (n : nat) (shape : list (ascii -> bool)) (s : string) :
  fits (repeat is_hex n ++ shape) s = true ->
  String.length (toUpperCase (slice_to n s)) = n /\
  string_forallb (fun c => is_upper c || is_digit c) (toUpperCase (slice_to n s)) = true.
Proof.
  revert s. induction n as [|n IH]; intros s H.
  - destruct s; auto.
  - destruct s as [|c r]; [discriminate H|].
    cbn [repeat app fits] in H. apply andb_true_iff in H as [Hc Hr].
    destruct (IH r Hr) as [Hlen Hall].
    cbn [slice_to toUpperCase String.length string_forallb].
    rewrite Hlen, Hall, (upper_hex c Hc). auto.
Qed.

(** The identifier built from a UUID has the form BK-[A-Z0-9]{8}. *)
Lemma bookingId_shape (uuid : string) :
  is_uuid uuid = true -> is_booking_id ("BK-" +:+ toUpperCase (slice_to 8 uuid)) = true.
Proof.
  intros H. destruct (fits_hex_prefix 8 _ uuid H) as [Hlen Hall].
  set (t := toUpperCase (slice_to 8 uuid)) in *.
  change (((String.length t =? 8)%nat
           && string_forallb (fun c => is_upper c || is_digit c) t) = true).
  rewrite Hlen, Hall. reflexivity.
Qed.

Lemma isConfirmed_word (message word : string) :
  In word ["yes"; "confirm"; "correct"; "looks good"; "that's right"] ->
  includes (toLowerCase message) word = true ->
  isConfirmed message = true.
Proof.
  intros Hin Hword. unfold isConfirmed, includes_any. apply existsb_exists.
  exists word. split; [exact Hin | exact Hword].
Qed.

Lemma default_present_None (fallback : string) (field : option string) :
  field = None -> default fallback (present field) = fallback.
Proof. intros ->. reflexivity. Qed.

Lemma chat_confirm_branch
    (host : Host) (w : World) (bookings : gmap string Booking)
    (message : string) (ctx : BookingContext) :
  step ctx = confirm_booking -> isConfirmed message = true ->
  chat host w bookings message ctx = confirmTurn host w bookings ctx.
Proof.
  intros Hstep Hyes. unfold chat, weatherTurn. rewrite Hstep, Hyes. reflexivity.
Qed.

Lemma present_default (fallback v : string) (field : option string) :
  present field = Some v -> default fallback (present field) = v.
Proof. intros ->. reflexivity. Qed.

(** C1.  On the step confirm_booking, a message whose lower-cased text
    contains yes, confirm, correct, looks good or that's right makes the
    chat route store a booking and return it: its status is confirmed, its
    identifier has the form BK-[A-Z0-9]{8}, every field the context lacks has
    its default (Guest, 2, today, 7:00 PM, Any, Unknown, no_preference) and
    every field the context has is copied; the returned context is the one
    received with the step booking_complete, and bookingComplete is true. *)
Theorem chat_confirms_booking
    (host : Host) (w : World) (bookings : gmap string Booking)
    (message : string) (ctx : BookingContext) :
  step ctx = confirm_booking ->
  (exists word,
     In word ["yes"; "confirm"; "correct"; "looks good"; "that's right"] /\
     includes (toLowerCase message) word = true) ->
  is_uuid (randomUUID w) = true ->
  let '(answer, bookings') := chat host w bookings message ctx in
  exists b,
    booking answer = Some b /\
    bookingComplete answer = Some true /\
    context answer = set_step booking_complete ctx /\
    step (context answer) = booking_complete /\
    MemStorage.getBooking (Booking.bookingId b) bookings' = Some b /\
    Booking.status b = confirmed /\
    is_booking_id (Booking.bookingId b) = true /\
    (customerName ctx = None -> Booking.customerName b = "Guest") /\
    (numberOfGuests ctx = None -> Booking.numberOfGuests b = of_Z 2) /\
    (bookingDate ctx = None -> Booking.bookingDate b = today w) /\
    (bookingTime ctx = None -> Booking.bookingTime b = "7:00 PM") /\
    (cuisinePreference ctx = None -> Booking.cuisinePreference b = "Any") /\
    (location ctx = None -> Booking.location b = "Unknown") /\
    (seatingPreference ctx = None -> Booking.seatingPreference b = no_preference) /\
    (forall v, present (customerName ctx) = Some v -> Booking.customerName b = v) /\
    (forall n, numberOfGuests ctx = Some n -> truthy_number n = true ->
       Booking.numberOfGuests b = n) /\
    (forall v, present (bookingDate ctx) = Some v -> Booking.bookingDate b = v) /\
    (forall v, present (bookingTime ctx) = Some v -> Booking.bookingTime b = v) /\
    (forall v, present (cuisinePreference ctx) = Some v -> Booking.cuisinePreference b = v) /\
    (forall v, present (location ctx) = Some v -> Booking.location b = v) /\
    (forall v, seatingPreference ctx = Some v -> Booking.seatingPreference b = v) /\
    Booking.specialRequests b = specialRequests ctx /\
    Booking.weatherInfo b = weatherInfo ctx.
Proof.
  intros Hstep (word & Hin & Hword) Huuid.
  rewrite (chat_confirm_branch host w bookings message ctx Hstep
             (isConfirmed_word message word Hin Hword)).
  unfold confirmTurn, MemStorage.createBooking, MemStorage.getBooking. cbv zeta.
  cbn [response context bookingComplete booking].
  eexists. split; [reflexivity|].
  cbn [Booking.bookingId Booking.customerName Booking.numberOfGuests Booking.bookingDate
       Booking.bookingTime Booking.cuisinePreference Booking.location
       Booking.specialRequests Booking.weatherInfo Booking.seatingPreference
       Booking.status Booking.createdAt
       bookingData Insert.customerName Insert.numberOfGuests Insert.bookingDate
       Insert.bookingTime Insert.cuisinePreference Insert.location
       Insert.specialRequests Insert.weatherInfo Insert.seatingPreference].
  split; [reflexivity|]. split; [reflexivity|]. split; [reflexivity|].
  split; [apply lookup_insert_eq|]. split; [reflexivity|].
  split; [apply bookingId_shape, Huuid|].
  split; [apply default_present_None|].
  split; [intros ->; reflexivity|].
  split; [apply default_present_None|].
  split; [apply default_present_None|].
  split; [apply default_present_None|].
  split; [apply default_present_None|].
  split; [intros ->; reflexivity|].
  split; [intros v; apply present_default|].
  split; [intros n -> ->; reflexivity|].
  split; [intros v; apply present_default|].
  split; [intros v; apply present_default|].
  split; [intros v; apply present_default|].
  split; [intros v; apply present_default|].
  split; [intros v ->; reflexivity|].
  split; reflexivity.
Qed.

Lemma chat_confirms_booking_witness :
  let answer :=
    fst (chat Sample.host Sample.offline MemStorage.empty "yes, confirm" Sample.ana) in
  exists b,
    booking answer = Some b /\
    bookingComplete answer = Some true /\
    step (context answer) = booking_complete /\
    Booking.status b = confirmed /\
    is_booking_id (Booking.bookingId b) = true /\
    Booking.bookingDate b = "2030-01-01".
Proof.
  assert (exists word,
            In word ["yes"; "confirm"; "correct"; "looks good"; "that's right"] /\
            includes (toLowerCase "yes, confirm") word = true) as Hword.
  { exists "yes". split; [simpl; tauto | reflexivity]. }
  pose proof (chat_confirms_booking Sample.host Sample.offline MemStorage.empty
                "yes, confirm" Sample.ana eq_refl Hword eq_refl) as H.
  destruct (chat Sample.host Sample.offline MemStorage.empty "yes, confirm" Sample.ana)
    as [answer bookings'].
  destruct H as (b & Hb & Hdone & _ & Hstep & _ & Hstatus & Hid & _ & _ & Hdate & _).
  exists b. cbn [fst]. repeat split; auto.
Defined.

(** * Further properties of the engine *)

(** ** Comparisons of integers *)

Lemma lt_of_Z (a b : Z) : lt (of_Z a) (of_Z b) = (a <? b)%Z.
Proof.
  unfold lt, of_Z. destruct (Z.ltb_spec a b) as [H | H].
  - apply Qlt_bool_iff. rewrite <- Zlt_Qlt. exact H.
  - destruct (Qlt_bool (inject_Z a) (inject_Z b)) eqn:E; [|reflexivity].
    apply Qlt_bool_iff in E. rewrite <- Zlt_Qlt in E. lia.
Qed.

Lemma le_of_Z (a b : Z) : le (of_Z a) (of_Z b) = (a <=? b)%Z.
Proof.
  unfold le, of_Z. destruct (Z.leb_spec a b) as [H | H].
  - apply Qle_bool_iff. rewrite <- Zle_Qle. exact H.
  - destruct (Qle_bool (inject_Z a) (inject_Z b)) eqn:E; [|reflexivity].
    apply Qle_bool_iff in E. rewrite <- Zle_Qle in E. lia.
Qed.

(** ** The synthetic weather *)

Lemma dateHash_nonneg (date : string) : (0 <= dateHash date)%Z.
Proof. induction date as [|c r IH]; simpl; unfold code; lia. Qed.

Lemma dateHash_template (date : string) :
  let h := dateHash date in
  (h mod 4 = 0 \/ h mod 4 = 1 \/ h mod 4 = 2 \/ h mod 4 = 3)%Z.
Proof. intros h. pose proof (Z.mod_pos_bound h 4). lia. Qed.

Lemma getMockWeather_temperature (date : string) :
  exists t, temperature (getMockWeather date) = of_Z t /\ (16 <= t <= 30)%Z.
Proof.
  unfold getMockWeather. cbv zeta. set (h := dateHash date).
  change (Z.of_nat (length conditions)) with 4%Z.
  pose proof (Z.mod_pos_bound h 5 ltac:(lia)).
  destruct (dateHash_template date) as [E | [E | [E | E]]]; fold h in E; rewrite E;
    eexists; (split; [reflexivity|]); cbn [nth Z.to_nat Pos.to_nat conditions mt_temp]; simpl;
    lia.
Qed.

(** X1.  The synthetic summary of any date string is one of the four
    templates, with a temperature within two degrees of the template's, a
    humidity from 50 to 79 and a wind speed from 2 to 9. *)
Theorem getMockWeather_bounds (date : string) :
  let m := getMockWeather date in
  exists template t h s,
    In template conditions /\
    condition m = mt_condition template /\
    description m = mt_description template /\
    temperature m = of_Z t /\
    (mt_temp template - 2 <= t <= mt_temp template + 2)%Z /\
    humidity m = Some (of_Z h) /\ (50 <= h <= 79)%Z /\
    windSpeed m = Some (of_Z s) /\ (2 <= s <= 9)%Z /\
    icon m = "01d".
Proof.
  intros m. subst m. unfold getMockWeather. cbv zeta.
  pose proof (dateHash_nonneg date) as Hpos.
  set (h := dateHash date) in *.
  change (Z.of_nat (length conditions)) with 4%Z.
  pose proof (Z.mod_pos_bound h 5). pose proof (Z.mod_pos_bound h 30).
  pose proof (Z.mod_pos_bound h 8).
  destruct (dateHash_template date) as [E | [E | [E | E]]]; fold h in E; rewrite E.
  - exists (mkMockTemplate "Clear" "Clear sky" 25),
      (25 + h mod 5 - 2)%Z, (50 + h mod 30)%Z, (2 + h mod 8)%Z.
    split; [left; reflexivity|]. repeat split; try reflexivity; cbn [mt_temp]; lia.
  - exists (mkMockTemplate "Clouds" "Partly cloudy" 22),
      (22 + h mod 5 - 2)%Z, (50 + h mod 30)%Z, (2 + h mod 8)%Z.
    split; [right; left; reflexivity|].
    repeat split; try reflexivity; cbn [mt_temp]; lia.
  - exists (mkMockTemplate "Rain" "Light rain" 18),
      (18 + h mod 5 - 2)%Z, (50 + h mod 30)%Z, (2 + h mod 8)%Z.
    split; [right; right; left; reflexivity|].
    repeat split; try reflexivity; cbn [mt_temp]; lia.
  - exists (mkMockTemplate "Sunny" "Sunny and warm" 28),
      (28 + h mod 5 - 2)%Z, (50 + h mod 30)%Z, (2 + h mod 8)%Z.
    split; [right; right; right; left; reflexivity|].
    repeat split; try reflexivity; cbn [mt_temp]; lia.
Qed.

Lemma seating_without_temperature (host : Host) (weatherCondition : string) (t : number) :
  gt t (of_Z 30) = false -> lt t (of_Z 10) = false ->
  preference (generateSeatingResponse host weatherCondition t) =
    let c := toLowerCase weatherCondition in
    if includes c "rain" || includes c "storm" || includes c "snow" then indoor
    else if includes c "clear" || includes c "sunny" then outdoor
    else no_preference.
Proof.
  intros Hhot Hcold. unfold generateSeatingResponse. cbv zeta. rewrite Hhot, Hcold.
  repeat destruct (_ || _); reflexivity.
Qed.

(** X2.  On a synthetic summary the seating rule never reaches its
    temperature rules: the temperature stays between 10 and 30, and the
    preference is indoor exactly for Rain, outdoor exactly for Clear and
    Sunny, and no_preference exactly for Clouds. *)
Theorem synthetic_weather_seating (host : Host) (date : string) :
  let m := getMockWeather date in
  let p := preference (generateSeatingResponse host (condition m) (temperature m)) in
  gt (temperature m) (of_Z 30) = false /\
  lt (temperature m) (of_Z 10) = false /\
  (p = indoor <-> condition m = "Rain") /\
  (p = outdoor <-> condition m = "Clear" \/ condition m = "Sunny") /\
  (p = no_preference <-> condition m = "Clouds").
Proof.
  intros m p.
  assert (gt (temperature m) (of_Z 30) = false /\ lt (temperature m) (of_Z 10) = false)
    as [Hhot Hcold].
  { destruct (getMockWeather_temperature date) as (t & Ht & Hrange).
    fold m in Ht. rewrite Ht. unfold gt. rewrite !lt_of_Z.
    split; apply Z.ltb_ge; lia. }
  split; [exact Hhot|]. split; [exact Hcold|].
  subst p. rewrite (seating_without_temperature host _ _ Hhot Hcold).
  subst m. unfold getMockWeather. cbv zeta.
  change (Z.of_nat (length conditions)) with 4%Z.
  destruct (dateHash_template date) as [E | [E | [E | E]]]; rewrite E;
    cbn [Z.to_nat Pos.to_nat Pos.iter_op Init.Nat.add nth conditions condition mt_condition];
    vm_compute; repeat split; intros; try discriminate; auto;
    repeat match goal with H : _ \/ _ |- _ => destruct H end; discriminate.
Qed.

Lemma dateHash_permutation (l1 l2 : list ascii) :
  Permutation l1 l2 ->
  dateHash (string_of_list_ascii l1) = dateHash (string_of_list_ascii l2).
Proof. induction 1; simpl; lia. Qed.

(** X3.  The synthetic summary depends on the characters of the date string
    only, not on their order: two strings made of the same characters get
    the same weather. *)
Theorem getMockWeather_permutation (date1 date2 : string) :
  Permutation (list_ascii_of_string date1) (list_ascii_of_string date2) ->
  getMockWeather date1 = getMockWeather date2.
Proof.
  intros H. apply dateHash_permutation in H.
  rewrite !string_of_list_ascii_of_string in H.
  unfold getMockWeather. rewrite H. reflexivity.
Qed.

Lemma getMockWeather_permutation_witness :
  getMockWeather "2030-01-12" = getMockWeather "2030-01-21".
Proof.
  apply getMockWeather_permutation. simpl.
  do 8 apply perm_skip. apply perm_swap.
Defined.

(** ** The resolver's choice of a path and of a forecast entry *)

Lemma key_configured (w : World) :
  OPENWEATHER_API_KEY w <> EmptyString ->
  negb (truthy_string (OPENWEATHER_API_KEY w)) = false.
Proof. destruct (OPENWEATHER_API_KEY w); [congruence | reflexivity]. Qed.

Lemma diffDays_of_time (host : Host) (w : World) (date : string) (t : Z) :
  Date_getTime host date = Some t ->
  lt (diffDays host w date) (of_Z 0) = (t <? today_midnight w)%Z /\
  le (diffDays host w date) (of_Z 5) = (t <? today_midnight w + forecast_window)%Z.
Proof.
  intros Ht. unfold diffDays, forecast_window. rewrite Ht, lt_of_Z, le_of_Z.
  pose proof (Z.div_mod (t - today_midnight w) 86400000 ltac:(lia)) as Hdiv.
  pose proof (Z.mod_pos_bound (t - today_midnight w) 86400000 ltac:(lia)) as Hmod.
  set (q := ((t - today_midnight w) / 86400000)%Z) in *.
  split.
  - destruct (Z.ltb_spec q 0), (Z.ltb_spec t (today_midnight w)); first [reflexivity | lia].
  - destruct (Z.leb_spec q 5), (Z.ltb_spec t (today_midnight w + 6 * 86400000));
      first [reflexivity | lia].
Qed.

(** X4.  With a credential, the resolver picks its path by the time of the
    date alone: before today's midnight the synthetic summary, within six
    days from it the forecast, later the current weather as an estimate.  A
    date string that is no date is treated like a far date: it takes the
    estimate path.  A path that throws gives the synthetic summary. *)
Theorem getWeatherForDate_window (host : Host) (w : World) (date location : string) :
  OPENWEATHER_API_KEY w <> EmptyString ->
  let answer := getWeatherForDate host w date location in
  (Date_getTime host date = None ->
     answer = or_synthetic date (getCurrentWeatherAsEstimate w location)) /\
  (forall t, Date_getTime host date = Some t ->
     ((t < today_midnight w)%Z -> answer = Some (getMockWeather date)) /\
     ((today_midnight w <= t < today_midnight w + forecast_window)%Z ->
        answer = or_synthetic date (getForecastWeather w location date)) /\
     ((today_midnight w + forecast_window <= t)%Z ->
        answer = or_synthetic date (getCurrentWeatherAsEstimate w location))).
Proof.
  intros Hkey answer. subst answer. unfold getWeatherForDate.
  rewrite (key_configured w Hkey). cbv zeta. split.
  - intros Hnone. unfold diffDays. rewrite Hnone. reflexivity.
  - intros t Ht. destruct (diffDays_of_time host w date t Ht) as [-> ->].
    repeat split; intros Hrange.
    + replace (t <? today_midnight w)%Z with true by (symmetry; apply Z.ltb_lt; lia).
      reflexivity.
    + replace (t <? today_midnight w)%Z with false by (symmetry; apply Z.ltb_ge; lia).
      replace (t <? today_midnight w + forecast_window)%Z with true
        by (symmetry; apply Z.ltb_lt; lia).
      reflexivity.
    + assert (0 < forecast_window)%Z by (unfold forecast_window; lia).
      replace (t <? today_midnight w)%Z with false by (symmetry; apply Z.ltb_ge; lia).
      replace (t <? today_midnight w + forecast_window)%Z with false
        by (symmetry; apply Z.ltb_ge; lia).
      reflexivity.
Qed.

Lemma getWeatherForDate_window_witness :
  getWeatherForDate Sample.host Sample.online "2030-01-03" "London"
    = or_synthetic "2030-01-03" (getForecastWeather Sample.online "London" "2030-01-03") /\
  getWeatherForDate Sample.host Sample.online "2030-03-01" "London"
    = or_synthetic "2030-03-01" (getCurrentWeatherAsEstimate Sample.online "London") /\
  getWeatherForDate Sample.host Sample.online "next friday" "London"
    = or_synthetic "next friday" (getCurrentWeatherAsEstimate Sample.online "London").
Proof.
  assert (OPENWEATHER_API_KEY Sample.online <> EmptyString) as Hkey by discriminate.
  split; [|split].
  - destruct (getWeatherForDate_window Sample.host Sample.online "2030-01-03" "London" Hkey)
      as (_ & Htime).
    destruct (Htime 1893628800000%Z eq_refl) as (_ & Hnear & _).
    apply Hnear. unfold forecast_window. simpl. lia.
  - destruct (getWeatherForDate_window Sample.host Sample.online "2030-03-01" "London" Hkey)
      as (_ & Htime).
    destruct (Htime 1898553600000%Z eq_refl) as (_ & _ & Hfar).
    apply Hfar. unfold forecast_window. simpl. lia.
  - destruct (getWeatherForDate_window Sample.host Sample.online "next friday" "London" Hkey)
      as (Hnone & _).
    apply Hnone. reflexivity.
Defined.

Lemma find_midday_some (target : string) (data : list ForecastItem) (item : ForecastItem) :
  find_midday target data = Return (Some item) ->
  In item data /\ is_midday target item = true.
Proof.
  induction data as [|first rest IH]; [discriminate|]. cbn [find_midday].
  unfold is_midday at 1.
  destruct (split " " (dt_txt first)) as [|itemDate [|clock more]] eqn:E; try discriminate.
  cbv zeta.
  destruct (String.eqb itemDate target && _ && _) eqn:Htest.
  - intros [= <-]. split; [left; reflexivity|]. unfold is_midday. rewrite E. exact Htest.
  - intros H. destruct (IH H). split; [right|]; assumption.
Qed.

Lemma find_midday_none (target : string) (data : list ForecastItem) :
  find_midday target data = Return None ->
  forall item, In item data -> is_midday target item = false.
Proof.
  induction data as [|first rest IH]; [intros _ item []|]. cbn [find_midday].
  destruct (split " " (dt_txt first)) as [|itemDate [|clock more]] eqn:E; try discriminate.
  cbv zeta.
  destruct (String.eqb itemDate target && _ && _) eqn:Htest; [discriminate|].
  intros H item [<- | Hin]; [|exact (IH H item Hin)].
  unfold is_midday. rewrite E. exact Htest.
Qed.

(** X5.  When the forecast path answers, the summary is built from an entry
    of the list the service returned: an entry of the target date in the
    window 12 to 15 when there is one; failing that an entry of the target
    date; failing that the first entry of the list. *)
Theorem getForecastWeather_selection
    (w : World) (location date : string) (data : list ForecastItem) (wi : WeatherInfo) :
  fetch_forecast w location = Return data ->
  getForecastWeather w location date = Return (Some wi) ->
  let target := hd EmptyString (split "T" date) in
  exists item entry others,
    In item data /\
    fi_weather item = entry :: others /\
    wi = forecast_summary item entry /\
    (is_midday target item = true \/
     ((forall i, In i data -> is_midday target i = false) /\
      (item_date item = target \/
       ((forall i, In i data -> item_date i <> target) /\ head data = Some item)))).
Proof.
  intros Hfetch. unfold getForecastWeather. rewrite Hfetch. cbn [mbind Result_bind].
  destruct (find_midday _ data) as [|[midday|]] eqn:Hmid; [discriminate| |];
    cbn [mbind Result_bind]; intros Hwi; cbv zeta.
  - destruct (find_midday_some _ _ _ Hmid) as [Hin Htest].
    destruct (fi_weather midday) as [|entry others] eqn:Hentry; [discriminate|].
    injection Hwi as <-. exists midday, entry, others.
    split; [exact Hin|]. split; [exact Hentry|]. split; [reflexivity|]. left. exact Htest.
  - pose proof (find_midday_none _ _ Hmid) as Hnone.
    unfold find_date in Hwi.
    destruct (List.find _ data) as [dated|] eqn:Hdate.
    + apply find_some in Hdate as [Hin Heq]. apply String.eqb_eq in Heq.
      destruct (fi_weather dated) as [|entry others] eqn:Hentry; [discriminate|].
      injection Hwi as <-. exists dated, entry, others.
      split; [exact Hin|]. split; [exact Hentry|]. split; [reflexivity|].
      right. split; [exact Hnone|]. left. exact Heq.
    + destruct data as [|first rest]; [discriminate|]. cbn [head] in Hwi.
      destruct (fi_weather first) as [|entry others] eqn:Hentry; [discriminate|].
      injection Hwi as <-. exists first, entry, others.
      split; [left; reflexivity|]. split; [exact Hentry|]. split; [reflexivity|].
      right. split; [exact Hnone|]. right. split; [|reflexivity].
      intros i Hi Heq. pose proof (find_none _ _ Hdate i Hi) as Hno. cbv beta in Hno.
      rewrite Heq, String.eqb_refl in Hno. discriminate.
Qed.

Lemma getForecastWeather_selection_witness :
  exists item entry others,
    In item [ mkForecastItem "2030-01-03 09:00:00" [Sample.clearSky] (of_Z 8) (of_Z 60) (of_Z 3);
              mkForecastItem "2030-01-03 12:00:00" [Sample.clearSky] (of_Z 14) (of_Z 55) (of_Z 4) ] /\
    fi_weather item = entry :: others /\
    mkWeatherInfo "Clear" (of_Z 14) "Clear Sky" "01d" (Some (of_Z 55)) (Some (of_Z 4))
      = forecast_summary item entry /\
    is_midday "2030-01-03" item = true.
Proof.
  destruct (getForecastWeather_selection Sample.online "London" "2030-01-03" _
              (mkWeatherInfo "Clear" (of_Z 14) "Clear Sky" "01d" (Some (of_Z 55)) (Some (of_Z 4)))
              eq_refl eq_refl)
    as (item & entry & others & Hin & Hentry & Hwi & Hchoice).
  exists item, entry, others. repeat split; try assumption.
  destruct Hchoice as [Hmid | [Hnone _]]; [exact Hmid|].
  exfalso. specialize (Hnone _ (or_intror (or_introl eq_refl))). discriminate Hnone.
Defined.

Lemma getForecastWeather_none (w : World) (location date : string) :
  getForecastWeather w location date = Return None <->
  fetch_forecast w location = Return [].
Proof.
  unfold getForecastWeather. split.
  - destruct (fetch_forecast w location) as [|data]; [discriminate|].
    cbn [mbind Result_bind].
    destruct (find_midday _ data) as [|[midday|]]; [discriminate| |];
      cbn [mbind Result_bind].
    + destruct (first_entry _); discriminate.
    + destruct (find_date _ data) as [dated|].
      * destruct (first_entry _); discriminate.
      * destruct data as [|first rest]; [reflexivity|]. cbn [head].
        destruct (first_entry _); discriminate.
  - intros ->. reflexivity.
Qed.

Lemma getCurrentWeatherAsEstimate_some (w : World) (location : string) :
  getCurrentWeatherAsEstimate w location <> Return None.
Proof.
  unfold getCurrentWeatherAsEstimate.
  destruct (fetch_current w location) as [|data]; [discriminate|]. cbn [mbind Result_bind].
  destruct (first_entry _); discriminate.
Qed.

(** X6.  The resolver has no summary, and the weather route answers 404,
    exactly when a credential is configured, the date lies within the six
    days of the forecast window and the service returns an empty forecast
    list; in every other case there is a summary and the route answers 200. *)
Theorem getWeatherForDate_none (host : Host) (w : World) (date location : string) :
  let nothing :=
    OPENWEATHER_API_KEY w <> EmptyString /\
    (exists t, Date_getTime host date = Some t /\
       (today_midnight w <= t < today_midnight w + forecast_window)%Z) /\
    fetch_forecast w location = Return [] in
  (getWeatherForDate host w date location = None <-> nothing) /\
  (status_of (weatherRoute host w location date) = 404%nat <-> nothing) /\
  (status_of (weatherRoute host w location date) = 200%nat <-> ~ nothing).
Proof.
  intros nothing.
  assert (getWeatherForDate host w date location = None <-> nothing) as Hiff.
  { subst nothing. split.
    - intros Hnone.
      destruct (String.eqb_spec (OPENWEATHER_API_KEY w) EmptyString) as [Hkey | Hkey].
      { unfold getWeatherForDate in Hnone. rewrite Hkey in Hnone. discriminate Hnone. }
      split; [exact Hkey|].
      destruct (Date_getTime host date) as [t|] eqn:Ht.
      + unfold getWeatherForDate in Hnone. rewrite (key_configured w Hkey) in Hnone.
        cbv zeta in Hnone. destruct (diffDays_of_time host w date t Ht) as [Hlt Hle].
        rewrite Hlt, Hle in Hnone.
        destruct (Z.ltb_spec t (today_midnight w)); [discriminate Hnone|].
        destruct (Z.ltb_spec t (today_midnight w + forecast_window)).
        * destruct (getForecastWeather w location date) as [|r] eqn:Hf; [discriminate Hnone|].
          subst r. apply getForecastWeather_none in Hf. split; [|exact Hf].
          exists t. split; [reflexivity | lia].
        * destruct (getCurrentWeatherAsEstimate w location) as [|r] eqn:He;
            [discriminate Hnone|].
          subst r. destruct (getCurrentWeatherAsEstimate_some _ _ He).
      + unfold getWeatherForDate, diffDays in Hnone.
        rewrite (key_configured w Hkey), Ht in Hnone. cbn in Hnone.
        destruct (getCurrentWeatherAsEstimate w location) as [|r] eqn:He;
          [discriminate Hnone|].
        subst r. destruct (getCurrentWeatherAsEstimate_some _ _ He).
    - intros (Hkey & (t & Ht & Hrange) & Hempty).
      unfold getWeatherForDate. rewrite (key_configured w Hkey). cbv zeta.
      destruct (diffDays_of_time host w date t Ht) as [-> ->].
      replace (t <? today_midnight w)%Z with false by (symmetry; apply Z.ltb_ge; lia).
      replace (t <? today_midnight w + forecast_window)%Z with true
        by (symmetry; apply Z.ltb_lt; lia).
      apply (getForecastWeather_none w location date) in Hempty.
      rewrite Hempty. reflexivity. }
  split; [exact Hiff|]. unfold weatherRoute.
  destruct (getWeatherForDate host w date location) as [weather|]; cbn [status_of].
  - split; split; try discriminate; try reflexivity.
    + intros H. apply Hiff in H. discriminate H.
    + intros _ H. apply Hiff in H. discriminate H.
  - split; split; try discriminate; try reflexivity.
    + intros _. apply Hiff. reflexivity.
    + intros H. destruct H. apply Hiff. reflexivity.
Qed.

Lemma getWeatherForDate_none_witness :
  getWeatherForDate Sample.host Sample.silent "2030-01-03" "London" = None /\
  status_of (weatherRoute Sample.host Sample.silent "London" "2030-01-03") = 404%nat /\
  status_of (weatherRoute Sample.host Sample.online "London" "2030-01-03") = 200%nat.
Proof.
  destruct (getWeatherForDate_none Sample.host Sample.silent "2030-01-03" "London")
    as (Hnone & Hmissing & _).
  destruct (getWeatherForDate_none Sample.host Sample.online "2030-01-03" "London")
    as (_ & _ & Hfound).
  assert (OPENWEATHER_API_KEY Sample.silent <> EmptyString /\
          (exists t, Date_getTime Sample.host "2030-01-03" = Some t /\
             (today_midnight Sample.silent <= t
              < today_midnight Sample.silent + forecast_window)%Z) /\
          fetch_forecast Sample.silent "London" = Return []) as Hcase.
  { split; [discriminate|]. split; [|reflexivity].
    exists 1893628800000%Z. split; [reflexivity|]. unfold forecast_window. simpl. lia. }
  split; [apply Hnone, Hcase|]. split; [apply Hmissing, Hcase|].
  apply Hfound. intros (_ & _ & Hempty). discriminate Hempty.
Defined.

(** ** [capitalizeWords] *)

Lemma join_cons_char (sep : string) (c : ascii) (word : string) (words : list string) :
  join sep (String c word :: words) = String c (join sep (word :: words)).
Proof. destruct words; reflexivity. Qed.

Lemma capitalizeFrom_split (s : string) :
  join " " (map (fun word => toUpperCase (charAt0 word) +:+ slice_from 1 word) (split " " s))
    = capitalizeFrom true s /\
  join " "
    match split " " s with
    | word :: words =>
        word :: map (fun word => toUpperCase (charAt0 word) +:+ slice_from 1 word) words
    | [] => []
    end = capitalizeFrom false s.
Proof.
  induction s as [|c r [IHtrue IHfalse]]; [split; reflexivity|].
  cbn [split capitalizeFrom].
  pose proof (split_nonempty " " r) as Hne.
  destruct (Ascii.eqb_spec c " ") as [-> | Hc].
  - destruct (split " " r) as [|word words]; [congruence|].
    cbn [map] in *. rewrite <- IHtrue. split; reflexivity.
  - destruct (split " " r) as [|word words]; [congruence|].
    cbn [map]. rewrite capitalize_word, !join_cons_char, IHfalse. split; reflexivity.
Qed.

Lemma upper_char_twice (c : ascii) : upper_char (upper_char c) = upper_char c.
Proof. destruct c as [[] [] [] [] [] [] [] []]; reflexivity. Qed.

Lemma lower_upper_char (c : ascii) : lower_char (upper_char c) = lower_char c.
Proof. destruct c as [[] [] [] [] [] [] [] []]; reflexivity. Qed.

Lemma capitalizeFrom_length (start : bool) (s : string) :
  String.length (capitalizeFrom start s) = String.length s.
Proof.
  revert start. induction s as [|c r IH]; intros start; [reflexivity|].
  cbn [capitalizeFrom]. destruct (Ascii.eqb c " "); cbn [String.length]; rewrite IH; reflexivity.
Qed.

Lemma capitalizeFrom_lower (start : bool) (s : string) :
  toLowerCase (capitalizeFrom start s) = toLowerCase s.
Proof.
  revert start. induction s as [|c r IH]; intros start; [reflexivity|].
  cbn [capitalizeFrom]. destruct (Ascii.eqb c " "); cbn [toLowerCase]; rewrite IH;
    [reflexivity|]. destruct start; [rewrite lower_upper_char|]; reflexivity.
Qed.

Lemma capitalizeFrom_twice (start : bool) (s : string) :
  capitalizeFrom start (capitalizeFrom start s) = capitalizeFrom start s.
Proof.
  revert start. induction s as [|c r IH]; intros start; [reflexivity|].
  cbn [capitalizeFrom]. destruct (Ascii.eqb c " ") eqn:E; cbn [capitalizeFrom].
  - rewrite E, IH. reflexivity.
  - destruct start.
    + rewrite upper_char_space, E, upper_char_twice, IH. reflexivity.
    + rewrite E, IH. reflexivity.
Qed.

Lemma upper_char_ascii (c : ascii) :
  (code c <? 128)%N = true -> (code (upper_char c) <? 128)%N = true.
Proof. destruct c as [[] [] [] [] [] [] [] []]; intros H; first [discriminate H | reflexivity]. Qed.

Lemma capitalizeFrom_ascii (start : bool) (s : string) :
  is_ascii_text s = true -> is_ascii_text (capitalizeFrom start s) = true.
Proof.
  unfold is_ascii_text. revert start.
  induction s as [|c r IH]; intros start H; [reflexivity|].
  cbn [string_forallb] in H. apply andb_true_iff in H as [Hc Hr].
  cbn [capitalizeFrom]. destruct (Ascii.eqb c " "); cbn [string_forallb].
  - rewrite Hc, (IH true Hr). reflexivity.
  - rewrite (IH false Hr), andb_true_r. destruct start; [apply upper_char_ascii|]; exact Hc.
Qed.

(** X7.  On a text of ASCII characters, [capitalizeWords] is the single pass
    that upper-cases a character exactly when it opens the text or follows
    a space.  So it changes nothing but the case of such characters: the
    result is ASCII text of the same length and with the same lower-cased
    text, runs of spaces are kept, and capitalizing twice is capitalizing
    once. *)
Theorem capitalizeWords_one_pass (str : string) :
  is_ascii_text str = true ->
  capitalizeWords str = capitalizeFrom true str /\
  is_ascii_text (capitalizeWords str) = true /\
  String.length (capitalizeWords str) = String.length str /\
  toLowerCase (capitalizeWords str) = toLowerCase str /\
  capitalizeWords (capitalizeWords str) = capitalizeWords str.
Proof.
  intros Hascii.
  assert (forall s, capitalizeWords s = capitalizeFrom true s) as Hpass.
  { intros s. unfold capitalizeWords. apply capitalizeFrom_split. }
  rewrite !Hpass.
  auto 6 using capitalizeFrom_ascii, capitalizeFrom_length, capitalizeFrom_lower,
    capitalizeFrom_twice.
Qed.

Lemma capitalizeWords_one_pass_witness :
  capitalizeWords "light  rain, 5 mph" = "Light  Rain, 5 Mph" /\
  String.length (capitalizeWords "light  rain, 5 mph") = 18%nat /\
  toLowerCase (capitalizeWords "light  rain, 5 mph") = "light  rain, 5 mph".
Proof.
  destruct (capitalizeWords_one_pass "light  rain, 5 mph" eq_refl)
    as (Hpass & _ & Hlength & Hlower & _).
  rewrite Hlength, Hlower. rewrite Hpass. repeat split.
Defined.

Lemma upper_char_letter (c : ascii) :
  is_lower c || is_upper c = true -> is_upper (upper_char c) = true.
Proof. destruct c as [[] [] [] [] [] [] [] []]; intros H; first [discriminate H | reflexivity]. Qed.

(** X8.  When every space-separated word of a text begins with an ASCII
    letter, every word of the capitalized text begins with an upper-case
    letter. *)
Theorem capitalizeWords_capitalized (str : string) :
  forallb starts_letter (split " " str) = true ->
  capitalized (capitalizeWords str) = true.
Proof.
  unfold capitalized. rewrite capitalizeWords_words.
  induction (split " " str) as [|word rest IH]; [reflexivity|].
  cbn [map forallb]. intros H. apply andb_true_iff in H as [Hword Hrest].
  apply andb_true_iff. split; [|exact (IH Hrest)].
  rewrite capitalize_word. destruct word as [|c r]; [discriminate Hword|].
  cbn [starts_upper]. apply upper_char_letter, Hword.
Qed.

Lemma capitalizeWords_capitalized_witness :
  capitalized (capitalizeWords "thunderstorm with light rain") = true.
Proof. apply capitalizeWords_capitalized. reflexivity. Defined.

(** ** The store and its routes *)

Lemma with_status_twice (s s' : Status) (b : Booking) :
  with_status s (with_status s' b) = with_status s b.
Proof. destruct b; reflexivity. Qed.

Lemma with_status_own (b : Booking) : with_status (Booking.status b) b = b.
Proof. destruct b; reflexivity. Qed.

Lemma dom_insert_held (id : string) (b b' : Booking) (bookings : gmap string Booking) :
  bookings !! id = Some b -> dom (<[id := b']> bookings) = dom bookings.
Proof.
  intros H. rewrite dom_insert_L.
  apply subseteq_union_1_L, singleton_subseteq_l, elem_of_dom. eauto.
Qed.

(** X9.  A booking that was created is found under its identifier, no other
    identifier is affected, and the store grows by one record when the
    identifier was free. *)
Theorem createBooking_lookup
    (w : World) (payload : InsertBooking) (bookings : gmap string Booking) :
  let '(b, bookings') := MemStorage.createBooking w payload bookings in
  MemStorage.getBooking (Booking.bookingId b) bookings' = Some b /\
  (forall other, other <> Booking.bookingId b ->
     MemStorage.getBooking other bookings' = MemStorage.getBooking other bookings) /\
  (MemStorage.getBooking (Booking.bookingId b) bookings = None ->
     size bookings' = S (size bookings)).
Proof.
  unfold MemStorage.createBooking, MemStorage.getBooking. cbv zeta.
  cbn [Booking.bookingId]. split; [apply lookup_insert_eq|]. split.
  - intros other Hne. apply lookup_insert_ne. congruence.
  - intros Hfree. apply map_size_insert_None, Hfree.
Qed.

Lemma createBooking_lookup_witness :
  let '(b, bookings') :=
    MemStorage.createBooking Sample.offline (bookingData Sample.offline Sample.ana)
      MemStorage.empty in
  size bookings' = 1%nat.
Proof.
  pose proof (createBooking_lookup Sample.offline (bookingData Sample.offline Sample.ana)
                MemStorage.empty) as H.
  destruct (MemStorage.createBooking Sample.offline (bookingData Sample.offline Sample.ana)
              MemStorage.empty) as [b bookings'].
  destruct H as (_ & _ & Hsize). apply Hsize. apply lookup_empty.
Defined.

(** X10.  The identifier is never checked against the store: when two UUIDs
    agree on their first eight characters, the second booking takes the
    identifier of the first and replaces it, and the store is the one the
    second creation alone would have given. *)
Theorem createBooking_collision
    (w1 w2 : World) (payload1 payload2 : InsertBooking) (bookings : gmap string Booking) :
  slice_to 8 (randomUUID w1) = slice_to 8 (randomUUID w2) ->
  let '(b1, bookings1) := MemStorage.createBooking w1 payload1 bookings in
  let '(b2, bookings2) := MemStorage.createBooking w2 payload2 bookings1 in
  Booking.bookingId b2 = Booking.bookingId b1 /\
  MemStorage.getBooking (Booking.bookingId b1) bookings2 = Some b2 /\
  bookings2 = snd (MemStorage.createBooking w2 payload2 bookings).
Proof.
  intros Hsame. unfold MemStorage.createBooking, MemStorage.getBooking. cbv zeta.
  cbn [Booking.bookingId snd]. rewrite Hsame.
  split; [reflexivity|]. split; [apply lookup_insert_eq | apply insert_insert_eq].
Qed.

Lemma createBooking_collision_witness :
  let payload := bookingData Sample.offline Sample.ana in
  let '(b1, bookings1) := MemStorage.createBooking Sample.offline payload MemStorage.empty in
  let '(b2, bookings2) :=
    MemStorage.createBooking Sample.online (bookingData Sample.online Sample.paris) bookings1 in
  MemStorage.getBooking "BK-3F2A9C1E" bookings2 = Some b2.
Proof.
  intros payload.
  pose proof (createBooking_collision Sample.offline Sample.online payload
                (bookingData Sample.online Sample.paris) MemStorage.empty eq_refl) as H.
  destruct (MemStorage.createBooking Sample.offline payload MemStorage.empty)
    as [b1 bookings1] eqn:E1.
  destruct (MemStorage.createBooking Sample.online (bookingData Sample.online Sample.paris)
              bookings1) as [b2 bookings2].
  destruct H as (_ & Hget & _).
  injection E1 as <- _. exact Hget.
Defined.

(** X11.  A status update returns the record it stored, changes neither the
    set of identifiers nor any other record, does nothing for an identifier
    the store does not hold or for the status the record has, and of two
    updates of one identifier the later decides. *)
Theorem updateBookingStatus_algebra
    (id : string) (s1 s2 : Status) (bookings : gmap string Booking) :
  let '(updated, bookings') := MemStorage.updateBookingStatus id s1 bookings in
  updated = MemStorage.getBooking id bookings' /\
  dom bookings' = dom bookings /\
  (forall other, other <> id ->
     MemStorage.getBooking other bookings' = MemStorage.getBooking other bookings) /\
  (MemStorage.getBooking id bookings = None -> updated = None /\ bookings' = bookings) /\
  (forall b, MemStorage.getBooking id bookings = Some b -> Booking.status b = s1 ->
     bookings' = bookings) /\
  snd (MemStorage.updateBookingStatus id s2 bookings')
    = snd (MemStorage.updateBookingStatus id s2 bookings).
Proof.
  unfold MemStorage.updateBookingStatus, MemStorage.getBooking.
  destruct (bookings !! id) as [b|] eqn:E.
  - rewrite lookup_insert_eq. split; [reflexivity|].
    split; [exact (dom_insert_held id b _ bookings E)|].
    split; [intros other Hne; apply lookup_insert_ne; congruence|].
    split; [discriminate|]. split.
    + intros b0 [= <-] <-. rewrite with_status_own. apply insert_id, E.
    + cbn [snd]. rewrite with_status_twice. apply insert_insert_eq.
  - rewrite E. repeat split; first [reflexivity | discriminate].
Qed.

Lemma updateBookingStatus_algebra_witness :
  MemStorage.updateBookingStatus "BK-00000000" pending MemStorage.empty
    = (None, MemStorage.empty).
Proof.
  pose proof (updateBookingStatus_algebra "BK-00000000" pending cancelled MemStorage.empty)
    as H.
  destruct (MemStorage.updateBookingStatus "BK-00000000" pending MemStorage.empty)
    as [updated bookings'].
  destruct H as (_ & _ & _ & Hfree & _).
  destruct Hfree as [-> ->]; [apply lookup_empty | reflexivity].
Defined.

(** X12.  Cancelling is the status update to cancelled: same store, and true
    exactly when the update finds the record.  Cancelling again changes
    nothing and still answers true, and a cancelled booking gets its former
    status back by a status update. *)
Theorem deleteBooking_as_update (id : string) (bookings : gmap string Booking) :
  let '(found, bookings') := MemStorage.deleteBooking id bookings in
  bookings' = snd (MemStorage.updateBookingStatus id cancelled bookings) /\
  found = bool_decide (is_Some (fst (MemStorage.updateBookingStatus id cancelled bookings))) /\
  dom bookings' = dom bookings /\
  MemStorage.deleteBooking id bookings' = (found, bookings') /\
  (forall b, MemStorage.getBooking id bookings = Some b ->
     snd (MemStorage.updateBookingStatus id (Booking.status b) bookings') = bookings).
Proof.
  unfold MemStorage.deleteBooking, MemStorage.updateBookingStatus, MemStorage.getBooking.
  destruct (bookings !! id) as [b|] eqn:E.
  - rewrite lookup_insert_eq. cbn [fst snd].
    split; [reflexivity|]. split; [reflexivity|].
    split; [exact (dom_insert_held id b _ bookings E)|].
    split.
    + rewrite with_status_twice, insert_insert_eq. reflexivity.
    + intros b0 [= <-]. rewrite with_status_twice, with_status_own, insert_insert_eq.
      apply insert_id, E.
  - rewrite E. cbn [fst snd]. repeat split; discriminate.
Qed.

Lemma deleteBooking_as_update_witness :
  let stored := snd (MemStorage.createBooking Sample.offline
                       (bookingData Sample.offline Sample.ana) MemStorage.empty) in
  snd (MemStorage.updateBookingStatus "BK-3F2A9C1E" confirmed
         (snd (MemStorage.deleteBooking "BK-3F2A9C1E" stored))) = stored.
Proof.
  intros stored.
  pose proof (deleteBooking_as_update "BK-3F2A9C1E" stored) as H.
  destruct (MemStorage.deleteBooking "BK-3F2A9C1E" stored) as [found bookings'].
  destruct H as (_ & _ & _ & _ & Hback).
  cbn [snd]. eapply (Hback (fst (MemStorage.createBooking Sample.offline
                                   (bookingData Sample.offline Sample.ana) MemStorage.empty))).
  subst stored. unfold MemStorage.createBooking, MemStorage.getBooking. cbn [fst snd].
  apply lookup_insert_eq.
Defined.

(** X13.  Through the routes: a created booking is answered with 201, then
    found with 200; its cancellation is answered with 200 and the booking
    is still found with 200, now cancelled; a second cancellation is again
    answered with 200.  An identifier the store does not hold gives 404 on
    both routes and leaves the store as it was. *)
Theorem booking_routes_lifecycle
    (w : World) (payload : InsertBooking) (bookings : gmap string Booking) (unknown : string) :
  let '(created, bookings1) := createBookingRoute w payload bookings in
  exists b,
    created = Json 201 b /\
    getBookingRoute (Booking.bookingId b) bookings1 = Json 200 b /\
    let '(cancelled1, bookings2) := deleteBookingRoute (Booking.bookingId b) bookings1 in
    cancelled1 = Json 200 (mkCancelled "Booking cancelled successfully" (Booking.bookingId b)) /\
    getBookingRoute (Booking.bookingId b) bookings2 = Json 200 (with_status cancelled b) /\
    deleteBookingRoute (Booking.bookingId b) bookings2 = (cancelled1, bookings2) /\
    (MemStorage.getBooking unknown bookings = None ->
       getBookingRoute unknown bookings = Failure 404 "Booking not found" /\
       deleteBookingRoute unknown bookings = (Failure 404 "Booking not found", bookings)).
Proof.
  unfold createBookingRoute, getBookingRoute, deleteBookingRoute,
    MemStorage.createBooking, MemStorage.deleteBooking, MemStorage.getBooking.
  cbv zeta. eexists. split; [reflexivity|]. cbn [Booking.bookingId].
  repeat (rewrite lookup_insert_eq; cbv beta iota).
  split; [reflexivity|]. split; [reflexivity|].
  repeat (rewrite lookup_insert_eq; cbv beta iota).
  split; [reflexivity|]. split.
  - rewrite with_status_twice, insert_insert_eq. reflexivity.
  - intros ->. split; reflexivity.
Qed.

Lemma booking_routes_lifecycle_witness :
  getBookingRoute "BK-00000000" MemStorage.empty = Failure 404 "Booking not found".
Proof.
  pose proof (booking_routes_lifecycle Sample.offline (bookingData Sample.offline Sample.ana)
                MemStorage.empty "BK-00000000") as H.
  destruct (createBookingRoute Sample.offline (bookingData Sample.offline Sample.ana)
              MemStorage.empty) as [created bookings1].
  destruct H as (b & _ & _ & H).
  destruct (deleteBookingRoute (Booking.bookingId b) bookings1) as [cancelled1 bookings2].
  destruct H as (_ & _ & _ & Hunknown).
  apply Hunknown. apply lookup_empty.
Defined.

(** ** The turns the route answers by itself *)

Lemma prefix_trans (p q s : string) :
  String.prefix p q = true -> String.prefix q s = true -> String.prefix p s = true.
Proof.
  revert q s. induction p as [|a p IH]; intros q s Hpq Hqs; [destruct s; reflexivity|].
  destruct q as [|b q]; [discriminate Hpq|]. destruct s as [|c s]; [discriminate Hqs|].
  cbn [String.prefix] in *.
  destruct (ascii_dec a b) as [<-|]; [|discriminate Hpq].
  destruct (ascii_dec a c) as [<-|]; [|discriminate Hqs].
  exact (IH q s Hpq Hqs).
Qed.

(** A text that contains a word contains every prefix of the word. *)
Lemma includes_prefix (s p q : string) :
  String.prefix p q = true -> includes s q = true -> includes s p = true.
Proof.
  intros Hpq. induction s as [|c r IH]; cbn [includes]; intros H.
  - apply orb_true_iff in H as [H | H]; [|discriminate H].
    rewrite (prefix_trans _ _ _ Hpq H). reflexivity.
  - apply orb_true_iff in H as [H | H].
    + rewrite (prefix_trans _ _ _ Hpq H). reflexivity.
    + rewrite (IH H). apply orb_true_r.
Qed.

(** X14.  The seating turn always stores a preference and moves to
    collect_special_requests, whatever the message.  A word for outdoor
    wins over a word for indoor, which wins over an agreement; without any
    of them the preference of the context stays, no_preference when there
    was none.  The reply names outdoor seating only for outdoor, and indoor
    seating otherwise, also when the stored preference is no_preference. *)
Theorem seatingTurn_preference (message : string) (ctx : BookingContext) :
  let answer := seatingTurn message ctx in
  let said := includes_any (toLowerCase message) in
  exists chosen,
    context answer =
      set_step collect_special_requests (set_seatingPreference (Some chosen) ctx) /\
    bookingComplete answer = None /\ booking answer = None /\
    (said ["outdoor"; "outside"; "patio"] = true -> chosen = outdoor) /\
    (said ["outdoor"; "outside"; "patio"] = false -> said ["indoor"; "inside"] = true ->
       chosen = indoor) /\
    (said ["outdoor"; "outside"; "patio"] = false -> said ["indoor"; "inside"] = false ->
       chosen = default (if said ["yes"; "sure"; "sounds good"] then indoor else no_preference)
                  (seatingPreference ctx)) /\
    String.prefix
      (if bool_decide (chosen = outdoor) then "Great choice! Outdoor seating it is."
       else "Great choice! Indoor seating it is.")
      (response answer) = true.
Proof.
  intros answer said. subst answer. unfold seatingTurn. cbv zeta. fold said.
  eexists. split; [reflexivity|]. split; [reflexivity|]. split; [reflexivity|].
  destruct (said ["outdoor"; "outside"; "patio"]).
  - repeat split; try discriminate; reflexivity.
  - destruct (said ["indoor"; "inside"]).
    + repeat split; try discriminate; reflexivity.
    + split; [discriminate|]. split; [discriminate|].
      split; [intros _ _; destruct (said ["yes"; "sure"; "sounds good"]); reflexivity|].
      cbn [reply response].
      destruct (said ["yes"; "sure"; "sounds good"]);
        destruct (seatingPreference ctx) as [[]|]; reflexivity.
Qed.

Lemma seatingTurn_preference_witness :
  seatingPreference (context (seatingTurn "inside please, not outside" (Sample.blank suggest_seating)))
    = Some outdoor /\
  seatingPreference (context (seatingTurn "whatever" (Sample.blank suggest_seating)))
    = Some no_preference /\
  String.prefix "Great choice! Indoor seating it is."
    (response (seatingTurn "whatever" (Sample.blank suggest_seating))) = true.
Proof.
  destruct (seatingTurn_preference "inside please, not outside" (Sample.blank suggest_seating))
    as (chosen & Hctx & _ & _ & Hout & _).
  destruct (seatingTurn_preference "whatever" (Sample.blank suggest_seating))
    as (chosen' & Hctx' & _ & _ & _ & _ & Hnone & Htext).
  rewrite Hctx, Hctx'. cbn [seatingPreference set_step set_seatingPreference].
  rewrite (Hout eq_refl), (Hnone eq_refl eq_refl) in *.
  split; [reflexivity|]. split; [reflexivity|]. exact Htext.
Defined.

(** X15.  The special-requests turn always moves to confirm_booking and
    replaces the special requests of the context: by nothing when the
    lower-cased message contains the letters no anywhere (the tests for
    none and nothing add nothing to that one), by the message as it was
    typed otherwise. *)
Theorem specialRequestsTurn_requests (host : Host) (message : string) (ctx : BookingContext) :
  let answer := specialRequestsTurn host message ctx in
  context answer =
    set_step confirm_booking
      (set_specialRequests
         (if includes (toLowerCase message) "no" then None else Some message) ctx) /\
  bookingComplete answer = None /\ booking answer = None.
Proof.
  intros answer. subst answer. unfold specialRequestsTurn, includes_any. cbv zeta.
  cbn [reply context bookingComplete booking existsb].
  split; [|split; reflexivity]. do 2 f_equal.
  destruct (includes (toLowerCase message) "no") eqn:Hno; [reflexivity|].
  destruct (includes (toLowerCase message) "none") eqn:Hnone.
  { rewrite (includes_prefix _ "no" "none" eq_refl Hnone) in Hno. discriminate Hno. }
  destruct (includes (toLowerCase message) "nothing") eqn:Hnothing.
  { rewrite (includes_prefix _ "no" "nothing" eq_refl Hnothing) in Hno. discriminate Hno. }
  reflexivity.
Qed.

(** ** The fallback parser *)

(** X16.  The fallback parser never completes a booking and writes nothing
    but the name, the guest count and the step: the name only on
    collect_name, moving to collect_guests, the guest count only on
    collect_guests, moving to collect_date.  A message that contains hello
    or hi, inside a word too, sends any step back to collect_name and
    writes no field. *)
Theorem createFallbackResponse_frame (host : Host) (message : string) (ctx : BookingContext) :
  let answer := createFallbackResponse host message ctx in
  let updated := context answer in
  let lower := toLowerCase message in
  bookingComplete answer = None /\ booking answer = None /\
  bookingDate updated = bookingDate ctx /\
  bookingTime updated = bookingTime ctx /\
  cuisinePreference updated = cuisinePreference ctx /\
  location updated = location ctx /\
  specialRequests updated = specialRequests ctx /\
  seatingPreference updated = seatingPreference ctx /\
  weatherInfo updated = weatherInfo ctx /\
  In (step updated) [collect_name; collect_guests; collect_date; step ctx] /\
  (includes lower "hello" = true \/ includes lower "hi" = true ->
     updated = set_step collect_name ctx) /\
  (customerName updated <> customerName ctx ->
     step ctx = collect_name /\ step updated = collect_guests) /\
  (numberOfGuests updated <> numberOfGuests ctx ->
     step ctx = collect_guests /\ step updated = collect_date).
Proof.
  intros answer updated lower. subst updated answer.
  unfold createFallbackResponse. cbv zeta. fold lower.
  destruct (includes lower "hello") eqn:Hhello, (includes lower "hi") eqn:Hhi;
    rewrite ?orb_true_r; cbn [orb];
    try (cbn [reply context bookingComplete booking];
         repeat split; intros; try congruence; try tauto; simpl; tauto).
  rewrite !orb_false_r.
  destruct (step ctx) eqn:Hstep;
    repeat match goal with
           | |- context [bool_decide (?a = ?b)] =>
               let v := eval vm_compute in (bool_decide (a = b)) in
               change (bool_decide (a = b)) with v
           end;
    cbn [andb];
    try (destruct (match_digits message));
    try (destruct (negb _));
    cbn [reply context bookingComplete booking
         set_step set_customerName set_numberOfGuests step customerName numberOfGuests
         bookingDate bookingTime cuisinePreference location specialRequests
         seatingPreference weatherInfo];
    rewrite ?Hstep;
    repeat split; intros; try congruence; try tauto;
    try (simpl; tauto);
    try (destruct H as [H | H]; discriminate H).
Qed.

Lemma createFallbackResponse_frame_witness :
  context (createFallbackResponse Sample.host "thirty" (Sample.blank collect_guests))
    = set_step collect_name (Sample.blank collect_guests).
Proof.
  destruct (createFallbackResponse_frame Sample.host "thirty" (Sample.blank collect_guests))
    as (_ & _ & _ & _ & _ & _ & _ & _ & _ & _ & Hgreeting & _).
  apply Hgreeting. right. reflexivity.
Defined.

Lemma join_split (sep : ascii) (s : string) :
  join (String sep EmptyString) (split sep s) = s.
Proof.
  induction s as [|c r IH]; [reflexivity|]. cbn [split].
  pose proof (split_nonempty sep r) as Hne.
  destruct (Ascii.eqb_spec c sep) as [-> | Hc];
    destruct (split sep r) as [|word words]; try congruence.
  - change (join (String sep EmptyString) (EmptyString :: word :: words))
      with (String sep (join (String sep EmptyString) (word :: words))).
    rewrite IH. reflexivity.
  - rewrite join_cons_char, IH. reflexivity.
Qed.

Lemma prefix_append (x y : string) : String.prefix x (x +:+ y) = true.
Proof.
  induction x as [|c x IH]; [destruct y; reflexivity|].
  simpl. destruct (ascii_dec c c); [exact IH | congruence].
Qed.

Lemma prefix_refl (x : string) : String.prefix x x = true.
Proof.
  induction x as [|c x IH]; [reflexivity|].
  simpl. destruct (ascii_dec c c); [exact IH | congruence].
Qed.

Lemma prefix_append_same (x y z : string) :
  String.prefix y z = true -> String.prefix (x +:+ y) (x +:+ z) = true.
Proof.
  intros H. induction x as [|c x IH]; [exact H|].
  simpl. destruct (ascii_dec c c); [exact IH | congruence].
Qed.

(** X17.  On collect_name, without a name so far and without a greeting
    word, the fallback parser takes the name from the start of the message:
    the whole message when it has at most three space-separated words, its
    first two words otherwise.  The name is a prefix of the message and has
    at most three words. *)
Theorem createFallbackResponse_name (host : Host) (message : string) (ctx : BookingContext) :
  step ctx = collect_name ->
  present (customerName ctx) = None ->
  includes (toLowerCase message) "hello" = false ->
  includes (toLowerCase message) "hi" = false ->
  exists name,
    context (createFallbackResponse host message ctx)
      = set_step collect_guests (set_customerName (Some name) ctx) /\
    String.prefix name message = true /\
    (length (split " " name) <= 3)%nat /\
    ((length (split " " message) <= 3)%nat -> name = message) /\
    ((3 < length (split " " message))%nat -> split " " name = take 2 (split " " message)).
Proof.
  intros Hstep Hname Hhello Hhi. unfold createFallbackResponse. cbv zeta.
  rewrite Hstep, Hname, Hhello, Hhi.
  rewrite (bool_decide_eq_false_2 (collect_name = greeting)) by discriminate.
  rewrite (bool_decide_eq_true_2 (collect_name = collect_name)) by reflexivity.
  rewrite (bool_decide_eq_false_2 (is_Some (@None string)))
    by (intros [x Hx]; discriminate Hx).
  cbn [orb andb negb reply context].
  eexists. split; [reflexivity|].
  destruct (Nat.leb_spec (length (split " " message)) 3) as [Hshort | Hlong].
  - split; [apply prefix_refl|].
    split; [exact Hshort|]. split; [reflexivity | lia].
  - pose proof (join_split " " message) as Hjoin.
    pose proof (split_words_free " " message) as Hfree.
    destruct (split " " message) as [|a [|b [|c rest]]]; cbn [length] in Hlong; try lia.
    cbn [take]. cbn [forallb] in Hfree.
    apply andb_true_iff in Hfree as [Ha Hfree]. apply andb_true_iff in Hfree as [Hb _].
    assert (split " " (join " " [a; b]) = [a; b]) as Hsplit.
    { apply split_join; [discriminate|]. cbn [forallb]. rewrite Ha, Hb. reflexivity. }
    split.
    + rewrite <- Hjoin.
      change (join " " [a; b]) with (a +:+ " " +:+ b).
      change (join " " (a :: b :: c :: rest))
        with (a +:+ " " +:+ b +:+ " " +:+ join " " (c :: rest)).
      apply prefix_append_same, (prefix_append_same " "), prefix_append.
    + rewrite Hsplit. split; [cbn [length]; lia|].
      split; [intros Hshort; cbn [length] in Hshort; lia | reflexivity].
Qed.

Lemma createFallbackResponse_name_witness :
  customerName (context (createFallbackResponse Sample.host "Ana Maria Souza de Almeida"
                           (Sample.blank collect_name)))
    = Some "Ana Maria".
Proof.
  destruct (createFallbackResponse_name Sample.host "Ana Maria Souza de Almeida"
              (Sample.blank collect_name) eq_refl eq_refl eq_refl eq_refl)
    as (name & Hctx & _ & _ & _ & Hlong).
  rewrite Hctx. cbn [customerName set_step set_customerName]. f_equal.
  rewrite <- (join_split " " name), Hlong; [reflexivity | simpl; lia].
Defined.

(** ** The merge, field by field *)

Lemma assign_text_written (f : BookingContext -> option string)
    (set : option string -> BookingContext -> BookingContext) v c :
  (forall o c', f (set o c') = o) ->
  f (assign_text v set c) =
    match truthy_text v with Some s => Some s | None => f c end.
Proof. intros H. unfold assign_text. destruct (truthy_text v); auto. Qed.

(** Proves that the text field [f] of a merge is the extracted value when
    it is truthy and the field of the context otherwise. *)
Ltac text_field f :=
  intros; unfold updateContext, extracted_text; cbv zeta;
  match goal with
  | |- context [p_extractedData ?p] => destruct (p_extractedData p)
  end;
  frame f; [rewrite (assign_text_written f) by reflexivity; frame f|]; reflexivity.

Lemma updateContext_customerName ctx parsed :
  customerName (updateContext ctx parsed) =
    match truthy_text (extracted_text ex_customerName parsed) with
    | Some s => Some s | None => customerName ctx end.
Proof. text_field customerName. Qed.

Lemma updateContext_bookingDate ctx parsed :
  bookingDate (updateContext ctx parsed) =
    match truthy_text (extracted_text ex_bookingDate parsed) with
    | Some s => Some s | None => bookingDate ctx end.
Proof. text_field bookingDate. Qed.

Lemma updateContext_bookingTime ctx parsed :
  bookingTime (updateContext ctx parsed) =
    match truthy_text (extracted_text ex_bookingTime parsed) with
    | Some s => Some s | None => bookingTime ctx end.
Proof. text_field bookingTime. Qed.

Lemma updateContext_cuisinePreference ctx parsed :
  cuisinePreference (updateContext ctx parsed) =
    match truthy_text (extracted_text ex_cuisinePreference parsed) with
    | Some s => Some s | None => cuisinePreference ctx end.
Proof. text_field cuisinePreference. Qed.

Lemma updateContext_location ctx parsed :
  location (updateContext ctx parsed) =
    match truthy_text (extracted_text ex_location parsed) with
    | Some s => Some s | None => location ctx end.
Proof. text_field location. Qed.

Lemma updateContext_specialRequests ctx parsed :
  specialRequests (updateContext ctx parsed) =
    match truthy_text (extracted_text ex_specialRequests parsed) with
    | Some s => Some s | None => specialRequests ctx end.
Proof. text_field specialRequests. Qed.

Lemma updateContext_seatingPreference ctx parsed :
  seatingPreference (updateContext ctx parsed) = seatingPreference ctx.
Proof.
  unfold updateContext. cbv zeta.
  destruct (p_extractedData parsed); frame seatingPreference; reflexivity.
Qed.

Lemma updateContext_weatherInfo ctx parsed :
  weatherInfo (updateContext ctx parsed) = weatherInfo ctx.
Proof.
  unfold updateContext. cbv zeta.
  destruct (p_extractedData parsed); frame weatherInfo; reflexivity.
Qed.

Lemma updateContext_step_value ctx parsed :
  step (updateContext ctx parsed) =
    match truthy_text (p_nextStep parsed) with
    | Some name =>
        if isValidStep name
        then match Step_of_name name with Some s => s | None => step ctx end
        else step ctx
    | None => step ctx
    end.
Proof.
  destruct (step_before_assign ctx parsed) as (updated & -> & <-).
  unfold assign_step. destruct (truthy_text (p_nextStep parsed)) as [name|]; [|reflexivity].
  destruct (isValidStep name); [|reflexivity].
  destruct (Step_of_name name); reflexivity.
Qed.

Lemma context_ext (a b : BookingContext) :
  customerName a = customerName b -> numberOfGuests a = numberOfGuests b ->
  bookingDate a = bookingDate b -> bookingTime a = bookingTime b ->
  cuisinePreference a = cuisinePreference b -> location a = location b ->
  specialRequests a = specialRequests b -> seatingPreference a = seatingPreference b ->
  weatherInfo a = weatherInfo b -> step a = step b -> a = b.
Proof. destruct a, b. cbn. intros; subst; reflexivity. Qed.

(** X18.  Merging the same reply a second time changes nothing.  Merging
    two replies gives, for each of the six text fields, the value of the
    later reply when it has one and the result of the earlier merge
    otherwise; for the guest count, the clamped number of the later reply
    when it has a truthy one; for the step, the step the later reply
    proposes when its name is valid. *)
Theorem updateContext_idempotent (ctx : BookingContext) (parsed later : Parsed) :
  let first := updateContext ctx parsed in
  let second := updateContext first later in
  let wins (field : Extracted -> maybe string) (earlier : option string) :=
    match truthy_text (extracted_text field later) with
    | Some s => Some s
    | None => earlier
    end in
  updateContext first parsed = first /\
  customerName second = wins ex_customerName (customerName first) /\
  bookingDate second = wins ex_bookingDate (bookingDate first) /\
  bookingTime second = wins ex_bookingTime (bookingTime first) /\
  cuisinePreference second = wins ex_cuisinePreference (cuisinePreference first) /\
  location second = wins ex_location (location first) /\
  specialRequests second = wins ex_specialRequests (specialRequests first) /\
  numberOfGuests second =
    match extracted_guests later with
    | VNumber n => if truthy_number n then Some (clampGuests n) else numberOfGuests first
    | _ => numberOfGuests first
    end /\
  step second =
    match truthy_text (p_nextStep later) with
    | Some name =>
        if isValidStep name then default (step first) (Step_of_name name) else step first
    | None => step first
    end /\
  seatingPreference second = seatingPreference first /\
  weatherInfo second = weatherInfo first.
Proof.
  cbv zeta. split.
  { apply context_ext.
    - rewrite !updateContext_customerName. destruct (truthy_text _); reflexivity.
    - rewrite !updateContext_guests.
      destruct (extracted_guests parsed) as [| | |n| |]; try reflexivity.
      destruct (truthy_number n); reflexivity.
    - rewrite !updateContext_bookingDate. destruct (truthy_text _); reflexivity.
    - rewrite !updateContext_bookingTime. destruct (truthy_text _); reflexivity.
    - rewrite !updateContext_cuisinePreference. destruct (truthy_text _); reflexivity.
    - rewrite !updateContext_location. destruct (truthy_text _); reflexivity.
    - rewrite !updateContext_specialRequests. destruct (truthy_text _); reflexivity.
    - rewrite !updateContext_seatingPreference. reflexivity.
    - rewrite !updateContext_weatherInfo. reflexivity.
    - rewrite !updateContext_step_value.
      destruct (truthy_text (p_nextStep parsed)) as [name|]; [|reflexivity].
      destruct (isValidStep name); [|reflexivity].
      destruct (Step_of_name name); reflexivity. }
  split; [apply updateContext_customerName|].
  split; [apply updateContext_bookingDate|].
  split; [apply updateContext_bookingTime|].
  split; [apply updateContext_cuisinePreference|].
  split; [apply updateContext_location|].
  split; [apply updateContext_specialRequests|].
  split; [apply updateContext_guests|].
  split.
  { rewrite updateContext_step_value.
    destruct (truthy_text (p_nextStep later)) as [name|]; [|reflexivity].
    destruct (isValidStep name); [|reflexivity].
    destruct (Step_of_name name); reflexivity. }
  split; [apply updateContext_seatingPreference | apply updateContext_weatherInfo].
Qed.

Lemma truthy_text_present (v : maybe string) (s : string) :
  truthy_text v = Some s -> present (Some s) = Some s.
Proof.
  destruct v as [| |t]; try discriminate. cbn [truthy_text].
  destruct (truthy_string t) eqn:E; [|discriminate]. intros [= <-].
  cbn [present]. rewrite E. reflexivity.
Qed.

(** X19.  A merge never empties a field: a text field that held a non-empty
    string holds one afterwards, and a guest count stays a guest count. *)
Theorem updateContext_never_empties (ctx : BookingContext) (parsed : Parsed) :
  let merged := updateContext ctx parsed in
  (is_Some (present (customerName ctx)) -> is_Some (present (customerName merged))) /\
  (is_Some (numberOfGuests ctx) -> is_Some (numberOfGuests merged)) /\
  (is_Some (present (bookingDate ctx)) -> is_Some (present (bookingDate merged))) /\
  (is_Some (present (bookingTime ctx)) -> is_Some (present (bookingTime merged))) /\
  (is_Some (present (cuisinePreference ctx)) ->
     is_Some (present (cuisinePreference merged))) /\
  (is_Some (present (location ctx)) -> is_Some (present (location merged))) /\
  (is_Some (present (specialRequests ctx)) -> is_Some (present (specialRequests merged))).
Proof.
  assert (forall v old, is_Some (present old) ->
            is_Some (present match truthy_text v with Some s => Some s | None => old end))
    as Hkeep.
  { intros v old Hold. destruct (truthy_text v) as [s|] eqn:E; [|exact Hold].
    rewrite (truthy_text_present v s E). eauto. }
  cbv zeta.
  rewrite updateContext_customerName, updateContext_bookingDate, updateContext_bookingTime,
    updateContext_cuisinePreference, updateContext_location, updateContext_specialRequests,
    updateContext_guests.
  repeat split; try apply Hkeep.
  intros Hheld. destruct (extracted_guests parsed) as [| | |n| |]; try exact Hheld.
  destruct (truthy_number n); [eauto | exact Hheld].
Qed.

Lemma updateContext_never_empties_witness :
  is_Some (present (location (updateContext Sample.paris
                                (mkParsed Undefined
                                   (Some (mkExtracted Undefined VUndefined Undefined Undefined
                                            Undefined (Val EmptyString) Undefined))
                                   Undefined VUndefined)))).
Proof.
  destruct (updateContext_never_empties Sample.paris
              (mkParsed Undefined
                 (Some (mkExtracted Undefined VUndefined Undefined Undefined
                          Undefined (Val EmptyString) Undefined))
                 Undefined VUndefined))
    as (_ & _ & _ & _ & _ & Hlocation & _).
  apply Hlocation. eexists. reflexivity.
Defined.

(** ** The JSON object inside the model's reply *)

Lemma up_to_last_close_none (s : string) :
  free_of "}" s = true -> up_to_last_close s = None.
Proof.
  induction s as [|c r IH]; [reflexivity|]. unfold free_of. cbn [string_forallb].
  intros H. apply andb_true_iff in H as [Hc Hr]. apply negb_true_iff in Hc.
  cbn [up_to_last_close]. rewrite (IH Hr), Hc. reflexivity.
Qed.

Lemma up_to_last_close_app (body s p : string) :
  up_to_last_close s = Some p -> up_to_last_close (body +:+ s) = Some (body +:+ p).
Proof.
  intros H. induction body as [|c r IH]; [exact H|].
  change (String c r +:+ s) with (String c (r +:+ s)).
  cbn [up_to_last_close]. rewrite IH. reflexivity.
Qed.

(** X20.  The object is found inside surrounding prose: when the text before
    it has no opening brace and the text after it has no closing brace, the
    span handed to JSON.parse is the object itself, whatever braces the
    object contains.  Without a closing brace after the first opening brace
    there is no span. *)
Theorem match_json_prose (before body after : string) :
  free_of "{" before = true -> free_of "}" after = true ->
  match_json (before +:+ "{" +:+ body +:+ "}" +:+ after) = Some ("{" +:+ body +:+ "}") /\
  match_json (before +:+ "{" +:+ after) = None.
Proof.
  intros Hbefore Hafter.
  assert (forall rest, match_json (before +:+ "{" +:+ rest) =
            match up_to_last_close rest with
            | Some p => Some (String "{" p)
            | None => None
            end) as Hskip.
  { intros rest. induction before as [|c r IH]; [reflexivity|].
    unfold free_of in Hbefore. cbn [string_forallb] in Hbefore.
    apply andb_true_iff in Hbefore as [Hc Hr]. apply negb_true_iff in Hc.
    change (String c r +:+ "{" +:+ rest) with (String c (r +:+ "{" +:+ rest)).
    cbn [match_json]. rewrite Hc. exact (IH Hr). }
  rewrite !Hskip. split.
  - rewrite (up_to_last_close_app body ("}" +:+ after) "}"); [reflexivity|].
    change ("}" +:+ after) with (String "}" after). cbn [up_to_last_close].
    rewrite (up_to_last_close_none after Hafter). reflexivity.
  - rewrite (up_to_last_close_none after Hafter). reflexivity.
Qed.

Lemma match_json_prose_witness :
  match_json ("Sure! Here it is: " +:+ "{" +:+ "a: {b: 1}" +:+ "}" +:+ " Anything else?")
    = Some ("{" +:+ "a: {b: 1}" +:+ "}").
Proof. apply match_json_prose; reflexivity. Defined.

(** ** What a chat turn can and cannot do *)

(** The four answers of the fallback parser. *)
Lemma createFallbackResponse_cases (host : Host) (message : string) (ctx : BookingContext) :
  let answer := createFallbackResponse host message ctx in
  exists text,
    answer = reply text (set_step collect_name ctx) \/
    (exists name,
       answer = reply text (set_step collect_guests (set_customerName (Some name) ctx))) \/
    (exists digits, match_digits message = Some digits /\
       answer = reply text
                  (set_step collect_date
                     (set_numberOfGuests (Some (clampGuests (parseInt digits))) ctx))) \/
    answer = reply text ctx.
Proof.
  unfold createFallbackResponse. cbv zeta.
  destruct (_ || _ || _); [eexists; left; reflexivity|].
  destruct (_ && _); [eexists; right; left; eexists; reflexivity|].
  destruct (bool_decide (step ctx = collect_guests));
    [|eexists; right; right; right; reflexivity].
  destruct (match_digits message) as [digits|] eqn:E;
    [|eexists; right; right; right; reflexivity].
  eexists. right. right. left. exists digits. split; reflexivity.
Qed.

Lemma clamped_digits_range (message digits : string) :
  match_digits message = Some digits ->
  in_guest_range (clampGuests (parseInt digits)) = true.
Proof.
  intros E. destruct (match_digits_shape _ _ E) as (c & r & -> & Hc & Hr).
  destruct (parseInt_digits c r Hc Hr) as (z & ->).
  apply clampGuests_range. discriminate.
Qed.

(** What the language-model turn of [processConversation] leaves of a
    context: no booking, the weather and the seating as they were, and a
    guest count that is the old one or lies in [1, 20]. *)
Lemma processConversation_frame
    (host : Host) (w : World) (message : string) (ctx : BookingContext) :
  let answer := processConversation host w message ctx in
  booking answer = None /\
  weatherInfo (context answer) = weatherInfo ctx /\
  (numberOfGuests (context answer) = numberOfGuests ctx \/
   exists v, numberOfGuests (context answer) = Some v /\ in_guest_range v = true).
Proof.
  assert (let answer := createFallbackResponse host message ctx in
          booking answer = None /\
          weatherInfo (context answer) = weatherInfo ctx /\
          (numberOfGuests (context answer) = numberOfGuests ctx \/
           exists v, numberOfGuests (context answer) = Some v /\ in_guest_range v = true))
    as Hfallback.
  { destruct (createFallbackResponse_cases host message ctx)
      as (text & [-> | [(name & ->) | [(digits & E & ->) | ->]]]);
      cbn [reply booking context weatherInfo numberOfGuests
           set_step set_numberOfGuests set_customerName]; auto.
    split; [reflexivity|]. split; [reflexivity|]. right.
    eauto using clamped_digits_range. }
  unfold processConversation.
  destruct (completion w) as [text|]; [|exact Hfallback].
  destruct (match_json text) as [span|]; [|exact Hfallback].
  destruct (JSON_parse host span) as [parsed|]; [|exact Hfallback].
  cbv zeta. cbn [booking context].
  split; [reflexivity|]. split; [apply updateContext_weatherInfo|].
  rewrite updateContext_guests.
  destruct (extracted_guests parsed) as [| | |n| |]; auto.
  destruct (truthy_number n) eqn:E; auto.
  right. eauto using clampGuests_range, truthy_number_not_NaN.
Qed.

(** The three outcomes of the look-up that follows the model's turn. *)
Lemma modelTurn_cases (host : Host) (w : World) (message : string) (ctx : BookingContext) :
  let asked := if bool_decide (step ctx = greeting) then set_step collect_name ctx else ctx in
  let result := processConversation host w message asked in
  let answer := modelTurn host w message ctx in
  booking answer = booking result /\
  bookingComplete answer = bookingComplete result /\
  (answer = result /\
   (present (location (context result)) = None \/
    present (bookingDate (context result)) = None \/
    is_Some (weatherInfo (context result)) \/
    step (context result) = fetch_weather) \/
   exists loc date,
     present (location (context result)) = Some loc /\
     present (bookingDate (context result)) = Some date /\
     weatherInfo (context result) = None /\
     ((getWeatherForDate host w date loc = None /\
       context answer = set_step fetch_weather (context result)) \/
      exists weather,
        getWeatherForDate host w date loc = Some weather /\
        context answer =
          set_step suggest_seating
            (set_seatingPreference
               (Some (preference (generateSeatingResponse host (condition weather)
                                    (temperature weather))))
               (set_weatherInfo (Some weather) (context result))))).
Proof.
  intros asked result answer. subst answer. unfold modelTurn. cbv zeta.
  fold asked. fold result. destruct result as [text rc complete stored].
  cbn [booking bookingComplete context].
  destruct (present (location rc)) as [loc|] eqn:Hloc;
    [|split; [reflexivity|]; split; [reflexivity|]; left; split; [reflexivity|]; auto].
  destruct (present (bookingDate rc)) as [date|] eqn:Hdate;
    [|split; [reflexivity|]; split; [reflexivity|]; left; split; [reflexivity|]; auto].
  destruct (weatherInfo rc) as [known|] eqn:Hknown.
  { rewrite (bool_decide_eq_true_2 (is_Some (Some known))) by eauto. cbn [negb andb].
    split; [reflexivity|]. split; [reflexivity|]. left. split; [reflexivity|]. eauto. }
  rewrite (bool_decide_eq_false_2 (is_Some (@None WeatherInfo)))
    by (intros [x Hx]; discriminate Hx).
  cbn [negb andb].
  destruct (decide (step rc = fetch_weather)) as [Hfetch | Hfetch].
  { rewrite (bool_decide_eq_true_2 _ Hfetch). cbn [negb].
    split; [reflexivity|]. split; [reflexivity|]. left. split; [reflexivity|]. auto. }
  rewrite (bool_decide_eq_false_2 _ Hfetch). cbn [negb].
  destruct (getWeatherForDate host w date loc) as [weather|] eqn:Hweather;
    cbn [booking bookingComplete context];
    (split; [reflexivity|]); (split; [reflexivity|]); right; exists loc, date;
    (split; [reflexivity|]); (split; [reflexivity|]); (split; [reflexivity|]).
  - right. exists weather. split; [exact Hweather | reflexivity].
  - left. split; [exact Hweather | reflexivity].
Qed.

Lemma weatherTurn_some (host : Host) (w : World) (ctx : BookingContext) (answer : ChatResponse) :
  weatherTurn host w ctx = Some answer ->
  exists loc date weather,
    present (location ctx) = Some loc /\
    present (bookingDate ctx) = Some date /\
    getWeatherForDate host w date loc = Some weather /\
    answer =
      reply (seating_response (generateSeatingResponse host (condition weather)
                                 (temperature weather)))
        (set_step suggest_seating
           (set_seatingPreference
              (Some (preference (generateSeatingResponse host (condition weather)
                                   (temperature weather))))
              (set_weatherInfo (Some weather) ctx))).
Proof.
  unfold weatherTurn. destruct (bool_decide _); [|discriminate].
  destruct (present (location ctx)) as [loc|] eqn:Hloc; [|discriminate].
  destruct (present (bookingDate ctx)) as [date|] eqn:Hdate; [|discriminate].
  destruct (getWeatherForDate host w date loc) as [weather|] eqn:Hweather; [|discriminate].
  cbv zeta. intros [= <-]. exists loc, date, weather.
  split; [reflexivity|]. split; [reflexivity|]. split; [exact Hweather | reflexivity].
Qed.

(** X21.  The chat route touches the store and returns a booking only on
    the step confirm_booking with a confirming message: on any other turn
    the store is the one it was and no booking is returned. *)
Theorem chat_creates_only_on_confirmation
    (host : Host) (w : World) (bookings : gmap string Booking)
    (message : string) (ctx : BookingContext) :
  step ctx <> confirm_booking \/ isConfirmed message = false ->
  let '(answer, bookings') := chat host w bookings message ctx in
  bookings' = bookings /\ booking answer = None.
Proof.
  intros Hother. unfold chat.
  destruct (weatherTurn host w ctx) as [answer|] eqn:Hweather.
  { apply weatherTurn_some in Hweather as (loc & date & weather & _ & _ & _ & ->). auto. }
  destruct (bool_decide (step ctx = suggest_seating)); [auto|].
  destruct (bool_decide (step ctx = collect_special_requests)); [auto|].
  destruct (decide (step ctx = confirm_booking)) as [Hstep | Hstep].
  - destruct Hother as [Hother | Hother]; [contradiction|].
    rewrite Hother, andb_false_r. split; [reflexivity|].
    destruct (modelTurn_cases host w message ctx) as (-> & _).
    apply processConversation_frame.
  - rewrite (bool_decide_eq_false_2 _ Hstep). cbn [andb]. split; [reflexivity|].
    destruct (modelTurn_cases host w message ctx) as (-> & _).
    apply processConversation_frame.
Qed.

Lemma chat_creates_only_on_confirmation_witness :
  snd (chat Sample.host Sample.offline MemStorage.empty "let me think" Sample.ana)
    = MemStorage.empty.
Proof.
  pose proof (chat_creates_only_on_confirmation Sample.host Sample.offline MemStorage.empty
                "let me think" Sample.ana (or_intror eq_refl)) as H.
  destruct (chat Sample.host Sample.offline MemStorage.empty "let me think" Sample.ana)
    as [answer bookings'].
  destruct H as [-> _]. reflexivity.
Defined.

Lemma asked_frame (ctx : BookingContext) :
  let asked := if bool_decide (step ctx = greeting) then set_step collect_name ctx else ctx in
  weatherInfo asked = weatherInfo ctx /\ numberOfGuests asked = numberOfGuests ctx.
Proof. cbv zeta. destruct (bool_decide _); split; reflexivity. Qed.

(** X22.  A chat turn leaves the weather of the context as it was, or
    attaches the summary the resolver gives for the location and the date
    of the returned context; in that case it also stores the preference of
    the seating rule for that summary and moves to suggest_seating. *)
Theorem chat_weather_attached
    (host : Host) (w : World) (bookings : gmap string Booking)
    (message : string) (ctx : BookingContext) :
  let updated := context (fst (chat host w bookings message ctx)) in
  weatherInfo updated = weatherInfo ctx \/
  exists loc date weather,
    present (location updated) = Some loc /\
    present (bookingDate updated) = Some date /\
    getWeatherForDate host w date loc = Some weather /\
    weatherInfo updated = Some weather /\
    seatingPreference updated =
      Some (preference (generateSeatingResponse host (condition weather)
                          (temperature weather))) /\
    step updated = suggest_seating.
Proof.
  unfold chat.
  destruct (weatherTurn host w ctx) as [answer|] eqn:Hweather.
  { apply weatherTurn_some in Hweather as (loc & date & weather & Hloc & Hdate & Hw & ->).
    right. exists loc, date, weather.
    cbn [fst reply context set_step set_seatingPreference set_weatherInfo
         location bookingDate weatherInfo seatingPreference step].
    repeat split; assumption. }
  destruct (bool_decide (step ctx = suggest_seating)); [left; reflexivity|].
  destruct (bool_decide (step ctx = collect_special_requests)); [left; reflexivity|].
  destruct (_ && _); [left; reflexivity|].
  cbn [fst].
  destruct (modelTurn_cases host w message ctx) as (_ & _ & Hcases).
  destruct (asked_frame ctx) as [Hasked _].
  destruct (processConversation_frame host w message
              (if bool_decide (step ctx = greeting) then set_step collect_name ctx else ctx))
    as (_ & Hframe & _).
  cbv zeta in Hcases, Hframe, Hasked. rewrite Hasked in Hframe.
  destruct Hcases as [[-> _] | (loc & date & Hloc & Hdate & Hnone & Hlook)].
  - left. exact Hframe.
  - destruct Hlook as [[_ ->] | (weather & Hw & ->)].
    + left. exact Hframe.
    + right. exists loc, date, weather.
      cbn [set_step set_seatingPreference set_weatherInfo
           location bookingDate weatherInfo seatingPreference step].
      repeat split; assumption.
Qed.

(** X23.  Whatever the turn, the guest count of the returned context is the
    one of the received context or lies in [1, 20]: no path of the chat
    route writes a guest count out of range. *)
Theorem chat_guest_range
    (host : Host) (w : World) (bookings : gmap string Booking)
    (message : string) (ctx : BookingContext) :
  let updated := context (fst (chat host w bookings message ctx)) in
  numberOfGuests updated = numberOfGuests ctx \/
  exists v, numberOfGuests updated = Some v /\ in_guest_range v = true.
Proof.
  unfold chat.
  destruct (weatherTurn host w ctx) as [answer|] eqn:Hweather.
  { apply weatherTurn_some in Hweather as (loc & date & weather & _ & _ & _ & ->).
    left. reflexivity. }
  destruct (bool_decide (step ctx = suggest_seating)); [left; reflexivity|].
  destruct (bool_decide (step ctx = collect_special_requests)); [left; reflexivity|].
  destruct (_ && _); [left; reflexivity|].
  cbn [fst].
  destruct (modelTurn_cases host w message ctx) as (_ & _ & Hcases).
  destruct (asked_frame ctx) as [_ Hasked].
  destruct (processConversation_frame host w message
              (if bool_decide (step ctx = greeting) then set_step collect_name ctx else ctx))
    as (_ & _ & Hframe).
  cbv zeta in Hcases, Hframe, Hasked. rewrite Hasked in Hframe.
  destruct Hcases as [[-> _] | (loc & date & _ & _ & _ & [[_ ->] | (weather & _ & ->)])];
    exact Hframe.
Qed.



(** X25.  The model alone can report a completed booking: when its reply is
    read with isConfirmed true and the next step booking_complete, on a
    step the route hands to the model, the answer carries bookingComplete
    true, while no booking is created, returned or stored. *)
Theorem model_completion_without_booking
    (host : Host) (w : World) (bookings : gmap string Booking)
    (message : string) (ctx : BookingContext) (text span : string) (parsed : Parsed) :
  In (step ctx) [greeting; collect_name; collect_guests; collect_date; collect_time;
                 collect_cuisine; collect_location; booking_complete] ->
  completion w = Some text ->
  match_json text = Some span ->
  JSON_parse host span = Some parsed ->
  p_isConfirmed parsed = VBool true ->
  p_nextStep parsed = Val "booking_complete" ->
  let '(answer, bookings') := chat host w bookings message ctx in
  bookingComplete answer = Some true /\ booking answer = None /\ bookings' = bookings.
Proof.
  intros Hstep Htext Hspan Hparsed Hconfirmed Hnext.
  assert (chat host w bookings message ctx = (modelTurn host w message ctx, bookings)) as ->.
  { unfold chat, weatherTurn. cbn [In] in Hstep.
    repeat (destruct Hstep as [<- | Hstep]; [reflexivity|]). destruct Hstep. }
  destruct (modelTurn_cases host w message ctx) as (-> & -> & _).
  split; [|split; [apply processConversation_frame | reflexivity]].
  unfold processConversation. rewrite Htext, Hspan, Hparsed. cbv zeta.
  cbn [bookingComplete]. rewrite Hconfirmed, updateContext_step_value, Hnext.
  reflexivity.
Qed.

Lemma model_completion_without_booking_witness :
  let '(answer, bookings') :=
    chat Sample.agreeing Sample.talking MemStorage.empty "book it" (Sample.blank collect_time) in
  bookingComplete answer = Some true /\ booking answer = None /\ bookings' = MemStorage.empty.
Proof.
  apply (model_completion_without_booking Sample.agreeing Sample.talking MemStorage.empty
           "book it" (Sample.blank collect_time) "All set! {...}" "{...}"
           (mkParsed (Val "All set!") None (Val "booking_complete") (VBool true)));
    first [reflexivity | simpl; tauto].
Defined.

(** ** More on the seating rule and on the forecast *)

(** X26.  What each preference means: outdoor is recommended only when the
    condition is not wet, the temperature is neither above 30 nor below 10
    and the condition is clear or sunny; indoor exactly when it is wet,
    above 30 or below 10; no_preference in the remaining case.  A
    temperature that is no number is neither above 30 nor below 10. *)
Theorem generateSeatingResponse_meaning
    (host : Host) (weatherCondition : string) (temp : number) :
  let c := toLowerCase weatherCondition in
  let wet := includes c "rain" || includes c "storm" || includes c "snow" in
  let fair := includes c "clear" || includes c "sunny" in
  let extreme := gt temp (of_Z 30) || lt temp (of_Z 10) in
  let p := preference (generateSeatingResponse host weatherCondition temp) in
  (p = indoor <-> wet || extreme = true) /\
  (p = outdoor <-> wet || extreme = false /\ fair = true) /\
  (p = no_preference <-> wet || extreme = false /\ fair = false) /\
  preference (generateSeatingResponse host weatherCondition NaN)
    = (if wet then indoor else if fair then outdoor else no_preference).
Proof.
  intros c wet fair extreme p. subst p extreme.
  unfold generateSeatingResponse. fold c. fold wet. fold fair.
  change (gt NaN (of_Z 30)) with false. change (lt NaN (of_Z 10)) with false.
  destruct wet, (gt temp (of_Z 30)), (lt temp (of_Z 10)), fair; cbn;
    repeat split; intros; try discriminate; try tauto;
    match goal with H : _ /\ _ |- _ => destruct H; discriminate end.
Qed.

(** X27.  A forecast whose first entry has a time stamp without a space
    makes the forecast path throw, whatever the other entries are, and so
    does a chosen entry whose weather array is empty; within the forecast
    window the resolver then returns the synthetic summary. *)
Theorem malformed_forecast_is_synthetic
    (host : Host) (w : World) (date location : string)
    (item : ForecastItem) (rest : list ForecastItem) (t : Z) :
  OPENWEATHER_API_KEY w <> EmptyString ->
  Date_getTime host date = Some t ->
  (today_midnight w <= t < today_midnight w + forecast_window)%Z ->
  fetch_forecast w location = Return (item :: rest) ->
  free_of " " (dt_txt item) = true \/ (rest = [] /\ fi_weather item = []) ->
  getWeatherForDate host w date location = Some (getMockWeather date).
Proof.
  intros Hkey Ht Hrange Hfetch Hbad.
  assert (getForecastWeather w location date = Throw) as Hthrow.
  { unfold getForecastWeather. rewrite Hfetch. cbn [mbind Result_bind find_midday].
    destruct Hbad as [Hfree | [-> Hempty]].
    - rewrite (split_free " " _ Hfree). reflexivity.
    - destruct (split " " (dt_txt item)) as [|itemDate [|clock more]] eqn:E;
        [reflexivity | reflexivity |].
      cbv zeta. unfold find_date. cbn [List.find find_midday].
      destruct (_ && _ && _); cbn [mbind Result_bind].
      + rewrite Hempty. reflexivity.
      + destruct (String.eqb _ _); cbn [head]; rewrite Hempty; reflexivity. }
  unfold getWeatherForDate. rewrite (key_configured w Hkey). cbv zeta.
  destruct (diffDays_of_time host w date t Ht) as [-> ->].
  replace (t <? today_midnight w)%Z with false by (symmetry; apply Z.ltb_ge; lia).
  replace (t <? today_midnight w + forecast_window)%Z with true
    by (symmetry; apply Z.ltb_lt; lia).
  rewrite Hthrow. reflexivity.
Qed.

Lemma malformed_forecast_is_synthetic_witness :
  getWeatherForDate Sample.host Sample.garbled "2030-01-03" "London"
    = Some (getMockWeather "2030-01-03").
Proof.
  eapply (malformed_forecast_is_synthetic Sample.host Sample.garbled "2030-01-03" "London"
            _ _ 1893628800000%Z).
  - discriminate.
  - reflexivity.
  - unfold forecast_window. simpl. lia.
  - reflexivity.
  - left. reflexivity.
Defined.
